(** * is-executable-es: the executability predicate of [mod.ts]

    A shallow embedding of [isExecutablePosix], [isExecutableWindows],
    [isExecutable] and [isExecutableSync], with the host (platform, process
    identity, [PATHEXT] list, [stat]) passed explicitly, and of the [extname]
    of [node:path] that the Windows rule calls. *)

From Stdlib Require Import ZArith String Ascii List Bool Lia.
Import ListNotations.

Local Open Scope string_scope.
Local Open Scope Z_scope.

(** ** Thrown values and completions *)

(** What the [catch] clauses of [mod.ts] can observe of a thrown value:
    whether it is an instance of [Deno.errors.NotFound], its [code] property
    (absent on a plain [Error]), and its message. *)
Record JsError : Type := mkJsError {
  instanceofDenoNotFound : bool;
  code : option string;
  message : string
}.

(** [error?.code === c] *)
Definition codeIs (error : JsError) (c : string) : bool :=
  match code error with
  | Some c' => String.eqb c' c
  | None => false
  end.

(** [new Error(msg)] *)
Definition newError (msg : string) : JsError :=
  {| instanceofDenoNotFound := false; code := None; message := msg |}.

(** Outcome of evaluating a blocking expression. *)
Inductive Completion (A : Type) : Type :=
| Return (a : A)
| Throw (error : JsError).
Arguments Return {A} a.
Arguments Throw {A} error.

(** Settled state of a promise. *)
Inductive Promise (A : Type) : Type :=
| Fulfilled (a : A)
| Rejected (error : JsError).
Arguments Fulfilled {A} a.
Arguments Rejected {A} error.

Definition bind {A B : Type} (c : Completion A) (k : A -> Completion B) : Completion B :=
  match c with
  | Return a => k a
  | Throw e => Throw e
  end.

Notation "x <- c ;; k" := (bind c (fun x => k))
  (at level 61, c at next level, right associativity).

(** [await p] inside an [async] function. *)
Definition await {A : Type} (p : Promise A) : Completion A :=
  match p with
  | Fulfilled a => Return a
  | Rejected e => Throw e
  end.

(** The promise an [async] function hands back for the completion of its body. *)
Definition async {A : Type} (c : Completion A) : Promise A :=
  match c with
  | Return a => Fulfilled a
  | Throw e => Rejected e
  end.

(** [try { body } catch (error) { handler }] *)
Definition tryCatch {A : Type} (body : Completion A) (handler : JsError -> Completion A)
  : Completion A :=
  match body with
  | Return a => Return a
  | Throw e => handler e
  end.

(** ** The JavaScript primitives the module uses *)

Module JS.

(** ToInt32: the operands of [&] and [|] are wrapped to signed 32 bits. *)
Definition toInt32 (n : Z) : Z := (n + 2 ^ 31) mod 2 ^ 32 - 2 ^ 31.

(** [a & b] *)
Definition and (a b : Z) : Z := Z.land (toInt32 a) (toInt32 b).

(** [a | b] *)
Definition or (a b : Z) : Z := Z.lor (toInt32 a) (toInt32 b).

(** [Boolean(n)] on an integer. *)
Definition Boolean (n : Z) : bool := negb (n =? 0).

(** [a ?? b], the right operand evaluated only when the left is nullish. *)
Definition nullish {A : Type} (a : option A) (b : Completion (option A))
  : Completion (option A) :=
  match a with
  | Some v => Return (Some v)
  | None => b
  end.

Definition digitOf (c : ascii) : Z := Z.of_N (N_of_ascii c) - 48.

(** [Number.parseInt(s, radix)] on a string of digits: the longest prefix of
    digits below [radix] is read, most significant first. *)
Fixpoint parseIntFrom (acc : Z) (s : string) (radix : Z) : Z :=
  match s with
  | EmptyString => acc
  | String c rest =>
      let d := digitOf c in
      if (0 <=? d) && (d <? radix)
      then parseIntFrom (acc * radix + d) rest radix
      else acc
  end.

Definition parseInt (s : string) (radix : Z) : Z := parseIntFrom 0 s radix.

(** Strings are sequences of code units below 256, one [ascii] per code unit
    (U+0000 to U+00FF).  On these [String.prototype.toLowerCase] works unit
    by unit: the capitals A-Z (65-90) and the capitals of the Latin-1 block,
    U+00C0-U+00D6 and U+00D8-U+00DE (192-214 and 216-222), move up by 32;
    every other unit, the multiplication sign 215 included, stays. *)
Definition lowerChar (c : ascii) : ascii :=
  let n := N_of_ascii c in
  if ((65 <=? n)%N && (n <=? 90)%N) ||
     ((192 <=? n)%N && (n <=? 214)%N) ||
     ((216 <=? n)%N && (n <=? 222)%N)
  then ascii_of_N (n + 32)
  else c.

(** [s.toLowerCase()] *)
Fixpoint toLowerCase (s : string) : string :=
  match s with
  | EmptyString => EmptyString
  | String c rest => String (lowerChar c) (toLowerCase rest)
  end.

(** [xs.includes(x)] on an array of strings. *)
Definition includes (xs : list string) (x : string) : bool :=
  existsb (fun y => String.eqb y x) xs.

End JS.

(** ** Data of the module *)

(** [NodeFsStats], as far as the module reads it.  Numbers are the integers
    [stat] reports; [null] (a host without the attribute) is [None]. *)
Module Stats.
Record t : Type := mk {
  isFile : bool;
  gid : option Z;
  mode : option Z;
  uid : option Z
}.
End Stats.

(** [IsExecutableOptions]; an absent property is [None]. *)
Module Options.
Record t : Type := mk {
  mayNotExist : option bool;
  gid : option Z;
  uid : option Z
}.
(** [{}], the default value of the [options] parameter. *)
Definition empty : t := {| mayNotExist := None; gid := None; uid := None |}.
End Options.

(** The host the module runs on: everything [mod.ts] imports or reads from
    globals. *)
Record Host : Type := mkHost {
  (** [platform] of [node:process] *)
  platform : string;
  (** [typeof Deno !== "undefined"] *)
  hasDeno : bool;
  (** [getgid?.()] and [getuid?.()]: [None] where the function is undefined *)
  getgid : option Z;
  getuid : option Z;
  (** [Deno.gid()] and [Deno.uid()]: [null] where unsupported, or a throw *)
  Deno_gid : Completion (option Z);
  Deno_uid : Completion (option Z);
  (** [envPathExt.get()] *)
  envPathExt_get : option (list string);
  (** [stat] of [node:fs/promises] and [statSync] of [node:fs] *)
  fsStat : string -> Promise Stats.t;
  fsStatSync : string -> Completion Stats.t
}.

(** ** [extname] of [node:path]

    [mod.ts] imports it as [pathExtname]; its code is Node's [lib/path.js],
    transcribed here for both flavours of the module. *)

Module NodePath.

(** [CHAR_BACKWARD_SLASH], the code unit 92 *)
Definition CHAR_BACKWARD_SLASH : ascii := ascii_of_nat 92.

(** [isPosixPathSeparator(code)] *)
Definition isPosixPathSeparator (code : ascii) : bool := Ascii.eqb code "/".

(** [isPathSeparator(code)], the Windows one *)
Definition isPathSeparator (code : ascii) : bool :=
  Ascii.eqb code "/" || Ascii.eqb code CHAR_BACKWARD_SLASH.

(** [isWindowsDeviceRoot(code)] *)
Definition isWindowsDeviceRoot (code : ascii) : bool :=
  let n := N_of_ascii code in
  ((65 <=? n)%N && (n <=? 90)%N) || ((97 <=? n)%N && (n <=? 122)%N).

(** The variables of the loop of [extname]; [endPos] is its [end]. *)
Record State : Type := mkState {
  startDot : Z;
  startPart : Z;
  endPos : Z;
  matchedSlash : bool;
  preDotState : Z
}.

(** The [for] loop of [extname]: [codes] holds [path[i]], [path[i - 1]], ...
    down to [path[start]]; a [break] ends the recursion. *)
Fixpoint extnameLoop (isSep : ascii -> bool) (codes : list ascii) (i : Z) (st : State)
  : State :=
  match codes with
  | [] => st
  | code :: rest =>
      if isSep code then
        if negb (matchedSlash st)
        then mkState (startDot st) (i + 1) (endPos st) (matchedSlash st) (preDotState st)
        else extnameLoop isSep rest (i - 1) st
      else
        let st :=
          if endPos st =? -1
          then mkState (startDot st) (startPart st) (i + 1) false (preDotState st)
          else st in
        let st :=
          if Ascii.eqb code "."
          then
            if startDot st =? -1
            then mkState i (startPart st) (endPos st) (matchedSlash st) (preDotState st)
            else if negb (preDotState st =? 1)
            then mkState (startDot st) (startPart st) (endPos st) (matchedSlash st) 1
            else st
          else if negb (startDot st =? -1)
          then mkState (startDot st) (startPart st) (endPos st) (matchedSlash st) (-1)
          else st in
        extnameLoop isSep rest (i - 1) st
  end.

(** The body of [extname] after the choice of [start]: the loop from the last
    code unit down to [start], then the test on what it found and the slice
    [path.slice(startDot, end)]. *)
Definition extnameFrom (isSep : ascii -> bool) (start : nat) (path : string) : string :=
  let st :=
    extnameLoop isSep (rev (skipn start (list_ascii_of_string path)))
      (Z.of_nat (String.length path) - 1)
      (mkState (-1) (Z.of_nat start) (-1) true 0) in
  if (startDot st =? -1) ||
     (endPos st =? -1) ||
     (preDotState st =? 0) ||
     ((preDotState st =? 1) &&
      (startDot st =? endPos st - 1) &&
      (startDot st =? startPart st + 1))
  then EmptyString
  else substring (Z.to_nat (startDot st)) (Z.to_nat (endPos st - startDot st)) path.

(** [posix.extname(path)] *)
Definition posix_extname (path : string) : string :=
  extnameFrom isPosixPathSeparator 0 path.

(** The start of the Windows loop: 2 after a drive prefix ([path.length >= 2],
    [path[1]] a colon, [path[0]] a drive letter), else 0. *)
Definition driveLength (path : string) : nat :=
  match path with
  | String c0 (String c1 _) =>
      if Ascii.eqb c1 ":" && isWindowsDeviceRoot c0 then 2%nat else 0%nat
  | _ => 0%nat
  end.

(** [win32.extname(path)] *)
Definition win32_extname (path : string) : string :=
  extnameFrom isPathSeparator (driveLength path) path.

End NodePath.

(** ** The module *)

Section Mod.

Variable host : Host.

(** [const isOSWindows: boolean = platform === "win32";] *)
Definition isOSWindows : bool := String.eqb (platform host) "win32".

(** [pathExtname], the [extname] of [node:path]: the module is its [win32]
    flavour when [process.platform === "win32"] and its [posix] flavour
    otherwise. *)
Definition pathExtname (filePath : string) : string :=
  if isOSWindows
  then NodePath.win32_extname filePath
  else NodePath.posix_extname filePath.

(** [(typeof Deno === "undefined") ? (getgid?.() ?? null) : Deno.gid()] *)
Definition processGid : Completion (option Z) :=
  if negb (hasDeno host) then Return (getgid host) else Deno_gid host.

(** [(typeof Deno === "undefined") ? (getuid?.() ?? null) : Deno.uid()] *)
Definition processUid : Completion (option Z) :=
  if negb (hasDeno host) then Return (getuid host) else Deno_uid host.

(** [if (x === null) { throw new Error(msg); }] *)
Definition throwIfNull {A : Type} (x : option A) (msg : string) : Completion A :=
  match x with
  | Some v => Return v
  | None => Throw (newError msg)
  end.

(** [options.gid ?? (...)] and [options.uid ?? (...)], the initialisers of
    [ownGid] and [ownUid]. *)
Definition ownGidOf (options : Options.t) : Completion (option Z) :=
  JS.nullish (Options.gid options) processGid.

Definition ownUidOf (options : Options.t) : Completion (option Z) :=
  JS.nullish (Options.uid options) processUid.

Definition isExecutablePosix (stat : Stats.t) (options : Options.t) : Completion bool :=
  if negb (Stats.isFile stat) then Return false else
  ownGid <- ownGidOf options ;;
  ownUid <- ownUidOf options ;;
  ownGid <- throwIfNull ownGid "Unable to get the group ID of the process!" ;;
  ownUid <- throwIfNull ownUid "Unable to get the user ID of the process!" ;;
  pathGid <- throwIfNull (Stats.gid stat) "Unable to get the group ID of the file!" ;;
  pathMode <- throwIfNull (Stats.mode stat) "Unable to get the mode of the file!" ;;
  pathUid <- throwIfNull (Stats.uid stat) "Unable to get the user ID of the file!" ;;
  let g := JS.parseInt "010" 8 in
  let o := JS.parseInt "001" 8 in
  let u := JS.parseInt "100" 8 in
  Return (
    JS.Boolean (JS.and pathMode o) ||
    (JS.Boolean (JS.and pathMode g) && (ownGid =? pathGid)) ||
    (JS.Boolean (JS.and pathMode u) && (pathUid =? ownUid)) ||
    (JS.Boolean (JS.and pathMode (JS.or u g)) && (ownUid =? 0))
  ).

Definition isExecutableWindows (stat : Stats.t) (filePath : string) : Completion bool :=
  if negb (Stats.isFile stat) then Return false else
  match envPathExt_get host with
  | None => Return true
  | Some pathExts =>
      Return (JS.includes (map JS.toLowerCase pathExts)
                          (JS.toLowerCase (pathExtname filePath)))
  end.

(** [const { mayNotExist = false } = options;] *)
Definition mayNotExistOf (options : Options.t) : bool :=
  match Options.mayNotExist options with
  | Some b => b
  | None => false
  end.

Definition isExecutable (filePath : string) (options : Options.t) : Promise bool :=
  async (
    let mayNotExist := mayNotExistOf options in
    tryCatch
      (pathStat <- await (fsStat host filePath) ;;
       if isOSWindows
       then isExecutableWindows pathStat filePath
       else isExecutablePosix pathStat options)
      (fun error =>
         if mayNotExist && (
              (hasDeno host && instanceofDenoNotFound error) ||
              codeIs error "EACCES")
         then Return false
         else Throw error)).

Definition isExecutableSync (filePath : string) (options : Options.t) : Completion bool :=
  let mayNotExist := mayNotExistOf options in
  tryCatch
    (pathStat <- fsStatSync host filePath ;;
     if isOSWindows
     then isExecutableWindows pathStat filePath
     else isExecutablePosix pathStat options)
    (fun error =>
       if mayNotExist && (
            (hasDeno host && instanceofDenoNotFound error) ||
            codeIs error "EACCES")
       then Return false
       else Throw error).

End Mod.

(** ** Failure kinds of the stat collaborator *)

(** A failed [stat] of a missing path: [Deno.errors.NotFound] under Deno, an
    error whose [code] is [ENOENT] under Node. *)
Definition isPathNotFound (error : JsError) : bool :=
  instanceofDenoNotFound error || codeIs error "ENOENT".

(** A failed [stat] for lack of permission on the path: [code] is [EACCES]. *)
Definition isPermissionDenied (error : JsError) : bool :=
  codeIs error "EACCES".

(** Whether a string contains a dot. *)
Fixpoint hasDot (s : string) : bool :=
  match s with
  | EmptyString => false
  | String c rest => Ascii.eqb c "." || hasDot rest
  end.

(** The substring of a string from its last dot to its end: nothing when
    there is no dot, otherwise the last dot and what follows it. *)
Definition isLastDotSuffix (filePath ext : string) : Prop :=
  (hasDot filePath = false /\ ext = EmptyString) \/
  (exists before after : string,
      filePath = (before ++ String "." after)%string /\
      hasDot after = false /\
      ext = String "." after).

(** The octal literals of the permission masks. *)
Definition S_IXOTH : Z := JS.parseInt "001" 8.
Definition S_IXGRP : Z := JS.parseInt "010" 8.
Definition S_IXUSR : Z := JS.parseInt "100" 8.

(** ** Abbreviations used by the statements *)

(** The value of the [return] expression of [isExecutablePosix], with the
    masks read as bit positions. *)
Definition posixBits (pathMode pathGid pathUid ownGid ownUid : Z) : bool :=
  Z.testbit pathMode 0 ||
  (Z.testbit pathMode 3 && (ownGid =? pathGid)) ||
  (Z.testbit pathMode 6 && (pathUid =? ownUid)) ||
  ((Z.testbit pathMode 6 || Z.testbit pathMode 3) && (ownUid =? 0)).

(** The body of the [try] block of both queries, once [stat] has answered. *)
Definition dispatch (host : Host) (filePath : string) (options : Options.t)
    (pathStat : Stats.t) : Completion bool :=
  if isOSWindows host
  then isExecutableWindows host pathStat filePath
  else isExecutablePosix host pathStat options.

(** What both [catch] clauses do with a thrown value. *)
Definition recover (host : Host) (options : Options.t) (error : JsError)
  : Completion bool :=
  if mayNotExistOf options &&
     ((hasDeno host && instanceofDenoNotFound error) || codeIs error "EACCES")
  then Return false
  else Throw error.

(** ** Sample hosts, errors and options *)

(** A Node host on Linux, process 1000:1000, every path a regular file of
    mode 0o100755 owned by 1000:1000. *)
Definition linuxNode : Host :=
  {| platform := "linux"; hasDeno := false;
     getgid := Some 1000; getuid := Some 1000;
     Deno_gid := Return None; Deno_uid := Return None;
     envPathExt_get := None;
     fsStat := fun _ => Fulfilled (Stats.mk true (Some 1000) (Some 33261) (Some 1000));
     fsStatSync := fun _ => Return (Stats.mk true (Some 1000) (Some 33261) (Some 1000)) |}.

(** A host whose process runs as user 1000 and on which the path is a
    regular file of mode 0o100 owned by user 7. *)
Definition ownerOnlyNode : Host :=
  {| platform := "linux"; hasDeno := false;
     getgid := Some 1000; getuid := Some 1000;
     Deno_gid := Return None; Deno_uid := Return None;
     envPathExt_get := None;
     fsStat := fun _ => Fulfilled (Stats.mk true (Some 50) (Some S_IXUSR) (Some 7));
     fsStatSync := fun _ => Return (Stats.mk true (Some 50) (Some S_IXUSR) (Some 7)) |}.

(** A Deno host on which the process identity cannot be had at all. *)
Definition noIdentityDeno : Host :=
  {| platform := "linux"; hasDeno := true;
     getgid := None; getuid := None;
     Deno_gid := Throw (newError "Requires sys access to gid");
     Deno_uid := Throw (newError "Requires sys access to uid");
     envPathExt_get := None;
     fsStat := fun _ => Fulfilled (Stats.mk false None None None);
     fsStatSync := fun _ => Return (Stats.mk false None None None) |}.

(** A Node host on Windows with the given [PATHEXT] list. *)
Definition windowsNode (pathExts : option (list string)) : Host :=
  {| platform := "win32"; hasDeno := false;
     getgid := None; getuid := None;
     Deno_gid := Return None; Deno_uid := Return None;
     envPathExt_get := pathExts;
     fsStat := fun _ => Fulfilled (Stats.mk true (Some 0) (Some 33206) (Some 0));
     fsStatSync := fun _ => Return (Stats.mk true (Some 0) (Some 33206) (Some 0)) |}.

(** The error Node's [stat] fails with on a missing path. *)
Definition enoent : JsError :=
  {| instanceofDenoNotFound := false;
     code := Some "ENOENT";
     message := "ENOENT: no such file or directory, stat '/missing/path'" |}.

(** A Node host (no [Deno] global) on which the path does not exist. *)
Definition missingNode : Host :=
  {| platform := "linux"; hasDeno := false;
     getgid := Some 1000; getuid := Some 1000;
     Deno_gid := Return None; Deno_uid := Return None;
     envPathExt_get := None;
     fsStat := fun _ => Rejected enoent;
     fsStatSync := fun _ => Throw enoent |}.

(** [{ uid: 0 }] *)
Definition rootOptions : Options.t :=
  {| Options.mayNotExist := None; Options.gid := None; Options.uid := Some 0 |}.

(** ** The extension of a path, stated without running [extname] *)

(** Every character of a string passes a test. *)
Fixpoint allChars (P : ascii -> bool) (s : string) : bool :=
  match s with
  | EmptyString => true
  | String c rest => P c && allChars P rest
  end.

(** The extension of one path segment: from its last dot to its end, and
    nothing when there is no dot, when the last dot is the first character,
    or when the segment is [..]. *)
Definition isExtensionOfSegment (name ext : string) : Prop :=
  exists e : string,
    isLastDotSuffix name e /\
    (e = name \/ name = ".." -> ext = EmptyString) /\
    (e <> name -> name <> ".." -> ext = e).

(** The last segment of a path: what stands between the last separator and
    the end once the [start] characters of the drive prefix and the trailing
    separators are set aside. *)
Definition isLastSegment (isSep : ascii -> bool) (start : nat) (path name : string)
  : Prop :=
  exists drive dir seps : string,
    path = (drive ++ dir ++ name ++ seps)%string /\
    String.length drive = start /\
    allChars isSep seps = true /\
    allChars (fun c => negb (isSep c)) name = true /\
    (name = EmptyString -> dir = EmptyString) /\
    (dir = EmptyString \/
     exists (d : string) (c : ascii), dir = (d ++ String c EmptyString)%string /\ isSep c = true).

(** A list that is empty or starts with a separator. *)
Definition headIsSep (isSep : ascii -> bool) (l : list ascii) : Prop :=
  l = [] \/ exists c r, l = c :: r /\ isSep c = true.

(** The separators and the drive prefix [extname] works with on a host. *)
Definition isHostSeparator (host : Host) : ascii -> bool :=
  if isOSWindows host then NodePath.isPathSeparator else NodePath.isPosixPathSeparator.

Definition hostDriveLength (host : Host) (filePath : string) : nat :=
  if isOSWindows host then NodePath.driveLength filePath else 0%nat.

(** ** The loop of [extname], read from the right end of a segment *)

(** For the part [s] of the last segment the loop has gone through: nothing
    when it has no dot, otherwise the length of its last-dot suffix and the
    value of [preDotState]. *)
Fixpoint dotInfo (s : list ascii) : option (nat * Z) :=
  match s with
  | [] => None
  | c :: rest =>
      match dotInfo rest with
      | None => if Ascii.eqb c "." then Some (S (length rest), 0) else None
      | Some (d, p) => if Ascii.eqb c "." then Some (d, 1) else Some (d, -1)
      end
  end.

(** The loop variables after a non-empty part of the last segment that ends at [E]. *)
Definition stateOfInfo (E sp : Z) (info : option (nat * Z)) : NodePath.State :=
  match info with
  | None => NodePath.mkState (-1) sp E false 0
  | Some (d, p) => NodePath.mkState (E - Z.of_nat d) sp E false p
  end.

(** The loop variables after the part [s] of the last segment. *)
Definition stateAfter (E sp : Z) (s : list ascii) : NodePath.State :=
  match s with
  | [] => NodePath.mkState (-1) sp (-1) true 0
  | _ :: _ => stateOfInfo E sp (dotInfo s)
  end.

(** One round of the loop on a character that is no separator. *)
Definition stepChar (code : ascii) (i : Z) (st : NodePath.State) : NodePath.State :=
  let st :=
    if NodePath.endPos st =? -1
    then NodePath.mkState (NodePath.startDot st) (NodePath.startPart st) (i + 1) false
           (NodePath.preDotState st)
    else st in
  if Ascii.eqb code "."
  then
    if NodePath.startDot st =? -1
    then NodePath.mkState i (NodePath.startPart st) (NodePath.endPos st)
           (NodePath.matchedSlash st) (NodePath.preDotState st)
    else if negb (NodePath.preDotState st =? 1)
    then NodePath.mkState (NodePath.startDot st) (NodePath.startPart st)
           (NodePath.endPos st) (NodePath.matchedSlash st) 1
    else st
  else if negb (NodePath.startDot st =? -1)
  then NodePath.mkState (NodePath.startDot st) (NodePath.startPart st)
         (NodePath.endPos st) (NodePath.matchedSlash st) (-1)
  else st.

(** The value of [extname] read off the last segment. *)
Definition extOfName (name : list ascii) : list ascii :=
  match dotInfo name with
  | None => []
  | Some (d, p) =>
      if (p =? 0) || ((p =? 1) && (d =? 1)%nat && (length name =? d + 1)%nat)
      then []
      else skipn (length name - d) name
  end.


(** ** Further abbreviations and samples *)

(** The three execute bits together, 0o111. *)
Definition S_IXUGO : Z := JS.parseInt "111" 8.

(** [{ ...options, mayNotExist: b }] *)
Definition withMayNotExist (b : bool) (options : Options.t) : Options.t :=
  {| Options.mayNotExist := Some b;
     Options.gid := Options.gid options;
     Options.uid := Options.uid options |}.

(** The five messages [isExecutablePosix] can throw, in the order of its
    checks. *)
Definition posixMessages : list string :=
  [ "Unable to get the group ID of the process!";
    "Unable to get the user ID of the process!";
    "Unable to get the group ID of the file!";
    "Unable to get the mode of the file!";
    "Unable to get the user ID of the file!" ].

(** A single backslash. *)
Definition backslash : string := String (ascii_of_nat 92) EmptyString.

(** The error Node's [stat] fails with for lack of permission. *)
Definition eacces : JsError :=
  {| instanceofDenoNotFound := false;
     code := Some "EACCES";
     message := "EACCES: permission denied, stat '/root/secret'" |}.

(** A Node host on which [stat] is refused. *)
Definition deniedNode : Host :=
  {| platform := "linux"; hasDeno := false;
     getgid := Some 1000; getuid := Some 1000;
     Deno_gid := Return None; Deno_uid := Return None;
     envPathExt_get := None;
     fsStat := fun _ => Rejected eacces;
     fsStatSync := fun _ => Throw eacces |}.

(** A Node host on Linux whose [stat] reports a regular file without a mode. *)
Definition noModeNode : Host :=
  {| platform := "linux"; hasDeno := false;
     getgid := Some 1000; getuid := Some 1000;
     Deno_gid := Return None; Deno_uid := Return None;
     envPathExt_get := None;
     fsStat := fun _ => Fulfilled (Stats.mk true (Some 50) None (Some 7));
     fsStatSync := fun _ => Return (Stats.mk true (Some 50) None (Some 7)) |}.

(** * Properties *)

(** ** Bit operations *)

Lemma toInt32_mod (n : Z) : JS.toInt32 n mod 2 ^ 32 = n mod 2 ^ 32.
Proof.
  unfold JS.toInt32.
  rewrite Zminus_mod_idemp_l.
  f_equal. lia.
Qed.

Lemma toInt32_testbit (n k : Z) :
  k < 32 -> Z.testbit (JS.toInt32 n) k = Z.testbit n k.
Proof.
  intros Hk.
  rewrite <- (Z.mod_pow2_bits_low (JS.toInt32 n) 32 k Hk).
  rewrite toInt32_mod.
  now apply Z.mod_pow2_bits_low.
Qed.

Lemma toInt32_pow2 (k : Z) : 0 <= k < 31 -> JS.toInt32 (2 ^ k) = 2 ^ k.
Proof.
  intros Hk. unfold JS.toInt32.
  assert (0 < 2 ^ k < 2 ^ 31).
  { split; [apply Z.pow_pos_nonneg; lia | apply Z.pow_lt_mono_r; lia]. }
  rewrite Z.mod_small; lia.
Qed.

Lemma land_pow2 (x k : Z) :
  0 <= k -> Z.land x (2 ^ k) = if Z.testbit x k then 2 ^ k else 0.
Proof.
  intros Hk. apply Z.bits_inj'. intros i Hi.
  rewrite Z.land_spec, Z.pow2_bits_eqb by assumption.
  destruct (Z.eqb_spec k i) as [->|Hne].
  - destruct (Z.testbit x i); simpl.
    + now rewrite Z.pow2_bits_true.
    + now rewrite Z.bits_0.
  - rewrite andb_false_r.
    destruct (Z.testbit x k).
    + now rewrite Z.pow2_bits_false.
    + now rewrite Z.bits_0.
Qed.

Lemma Boolean_and_pow2 (m k : Z) :
  0 <= k < 31 -> JS.Boolean (JS.and m (2 ^ k)) = Z.testbit m k.
Proof.
  intros Hk. unfold JS.Boolean, JS.and.
  rewrite toInt32_pow2, land_pow2 by lia.
  rewrite toInt32_testbit by lia.
  assert (0 < 2 ^ k) by (apply Z.pow_pos_nonneg; lia).
  destruct (Z.testbit m k); simpl.
  - destruct (Z.eqb_spec (2 ^ k) 0); [lia | reflexivity].
  - reflexivity.
Qed.

Lemma Boolean_and_lor_pow2 (m j k : Z) :
  0 <= j < 31 -> 0 <= k < 31 ->
  JS.Boolean (JS.and m (JS.or (2 ^ j) (2 ^ k))) = Z.testbit m j || Z.testbit m k.
Proof.
  intros Hj Hk. unfold JS.Boolean, JS.and, JS.or.
  rewrite !toInt32_pow2 by lia.
  assert (Hpj : 0 < 2 ^ j < 2 ^ 31).
  { split; [apply Z.pow_pos_nonneg; lia | apply Z.pow_lt_mono_r; lia]. }
  assert (Hpk : 0 < 2 ^ k < 2 ^ 31).
  { split; [apply Z.pow_pos_nonneg; lia | apply Z.pow_lt_mono_r; lia]. }
  assert (Hor : JS.toInt32 (Z.lor (2 ^ j) (2 ^ k)) = Z.lor (2 ^ j) (2 ^ k)).
  { unfold JS.toInt32.
    assert (0 <= Z.lor (2 ^ j) (2 ^ k)) by (apply Z.lor_nonneg; lia).
    assert (Z.lor (2 ^ j) (2 ^ k) < 2 ^ 31).
    { destruct (Z.eq_dec (Z.lor (2 ^ j) (2 ^ k)) 0) as [->|Hnz]; [lia|].
      apply Z.log2_lt_pow2; [lia|].
      rewrite Z.log2_lor by lia.
      rewrite !Z.log2_pow2 by lia. lia. }
    rewrite Z.mod_small; lia. }
  rewrite Hor, Z.land_lor_distr_r, !land_pow2 by lia.
  rewrite !toInt32_testbit by lia.
  destruct (Z.testbit m j), (Z.testbit m k); simpl;
    rewrite ?Z.lor_0_r, ?Z.lor_0_l, ?Z.lor_diag;
    try reflexivity.
  - destruct (Z.eqb_spec (Z.lor (2 ^ j) (2 ^ k)) 0) as [E|]; [|reflexivity].
    apply Z.lor_eq_0_iff in E. lia.
  - destruct (Z.eqb_spec (2 ^ j) 0); [lia | reflexivity].
  - destruct (Z.eqb_spec (2 ^ k) 0); [lia | reflexivity].
Qed.

Lemma masks_are_bits : S_IXOTH = 2 ^ 0 /\ S_IXGRP = 2 ^ 3 /\ S_IXUSR = 2 ^ 6.
Proof. repeat split. Qed.

(** ** The POSIX rule *)

Lemma isExecutablePosix_regular (host : Host) (stat : Stats.t) (options : Options.t)
    (ownGid ownUid pathGid pathMode pathUid : Z) :
  Stats.isFile stat = true ->
  ownGidOf host options = Return (Some ownGid) ->
  ownUidOf host options = Return (Some ownUid) ->
  Stats.gid stat = Some pathGid ->
  Stats.mode stat = Some pathMode ->
  Stats.uid stat = Some pathUid ->
  isExecutablePosix host stat options =
  Return (posixBits pathMode pathGid pathUid ownGid ownUid).
Proof.
  intros Hfile Hg Hu Hpg Hpm Hpu.
  unfold isExecutablePosix.
  rewrite Hfile, Hg, Hu, Hpg, Hpm, Hpu. cbn [negb bind throwIfNull].
  change (JS.parseInt "001" 8) with (2 ^ 0).
  change (JS.parseInt "010" 8) with (2 ^ 3).
  change (JS.parseInt "100" 8) with (2 ^ 6).
  rewrite !Boolean_and_pow2, Boolean_and_lor_pow2 by lia.
  reflexivity.
Qed.

Lemma isExecutablePosix_not_file (host : Host) (stat : Stats.t) (options : Options.t) :
  Stats.isFile stat = false -> isExecutablePosix host stat options = Return false.
Proof.
  intros Hfile. unfold isExecutablePosix. now rewrite Hfile.
Qed.

Lemma isExecutableWindows_not_file (host : Host) (stat : Stats.t) (filePath : string) :
  Stats.isFile stat = false -> isExecutableWindows host stat filePath = Return false.
Proof.
  intros Hfile. unfold isExecutableWindows. now rewrite Hfile.
Qed.

Lemma testbit_mask (m k : Z) :
  0 <= k -> (Z.testbit m k = true <-> Z.land m (2 ^ k) <> 0).
Proof.
  intros Hk. rewrite land_pow2 by assumption.
  assert (0 < 2 ^ k) by (apply Z.pow_pos_nonneg; lia).
  destruct (Z.testbit m k); split; intros; try lia; try congruence.
Qed.

(** C2: on a regular file whose mode, owner user id and owner group id are
    present, and for an identity (uid, gid), the POSIX rule returns a boolean
    that is true exactly when the other-execute bit (0o001) is set, or the
    group-execute bit (0o010) is set and gid is the owner group, or the
    owner-execute bit (0o100) is set and uid is the owner user, or one of the
    owner-execute and group-execute bits is set and uid is 0. *)
Theorem C2_posix_rule (host : Host) (stat : Stats.t) (options : Options.t)
    (gid uid ownerGroupId mode ownerUserId : Z)
    (Hfile : Stats.isFile stat = true)
    (Hgid : ownGidOf host options = Return (Some gid))
    (Huid : ownUidOf host options = Return (Some uid))
    (Hpg : Stats.gid stat = Some ownerGroupId)
    (Hpm : Stats.mode stat = Some mode)
    (Hpu : Stats.uid stat = Some ownerUserId) :
  exists b : bool,
    isExecutablePosix host stat options = Return b /\
    (b = true <->
       Z.land mode S_IXOTH <> 0 \/
       (Z.land mode S_IXGRP <> 0 /\ gid = ownerGroupId) \/
       (Z.land mode S_IXUSR <> 0 /\ uid = ownerUserId) \/
       ((Z.land mode S_IXUSR <> 0 \/ Z.land mode S_IXGRP <> 0) /\ uid = 0)).
Proof.
  exists (posixBits mode ownerGroupId ownerUserId gid uid).
  split.
  - now apply isExecutablePosix_regular.
  - destruct masks_are_bits as (-> & -> & ->).
    rewrite <- !testbit_mask by lia.
    unfold posixBits.
    rewrite !orb_true_iff, !andb_true_iff, orb_true_iff, !Z.eqb_eq.
    intuition congruence.
Qed.

Lemma C2_posix_rule_witness :
  exists b : bool,
    isExecutablePosix linuxNode (Stats.mk true (Some 50) (Some 33256) (Some 7))
      Options.empty = Return b /\
    (b = true <->
       Z.land 33256 S_IXOTH <> 0 \/
       (Z.land 33256 S_IXGRP <> 0 /\ 1000 = 50) \/
       (Z.land 33256 S_IXUSR <> 0 /\ 1000 = 7) \/
       ((Z.land 33256 S_IXUSR <> 0 \/ Z.land 33256 S_IXGRP <> 0) /\ 1000 = 0)).
Proof.
  apply (C2_posix_rule linuxNode (Stats.mk true (Some 50) (Some 33256) (Some 7))
           Options.empty 1000 1000 50 33256 7); reflexivity.
Defined.

(** C4: on metadata that is not a regular file both the POSIX rule and the
    Windows rule return false, whatever the mode bits, the identity, the path
    and the extension list. *)
Theorem C4_not_regular_file_false (host : Host) (stat : Stats.t)
    (options : Options.t) (filePath : string)
    (Hfile : Stats.isFile stat = false) :
  isExecutablePosix host stat options = Return false /\
  isExecutableWindows host stat filePath = Return false.
Proof.
  split.
  - now apply isExecutablePosix_not_file.
  - now apply isExecutableWindows_not_file.
Qed.

Lemma C4_not_regular_file_false_witness :
  isExecutablePosix linuxNode (Stats.mk false (Some 0) (Some 16877) (Some 0))
    Options.empty = Return false /\
  isExecutableWindows linuxNode (Stats.mk false (Some 0) (Some 16877) (Some 0))
    "C:\tools\run.exe" = Return false.
Proof.
  apply (C4_not_regular_file_false linuxNode
           (Stats.mk false (Some 0) (Some 16877) (Some 0)) Options.empty
           "C:\tools\run.exe").
  reflexivity.
Defined.

(** World-executable only: true for any identity. *)
Example posix_other_execute :
  isExecutablePosix linuxNode (Stats.mk true (Some 50) (Some S_IXOTH) (Some 7))
    Options.empty = Return true.
Proof. reflexivity. Qed.

(** No execute bit: false, also for the superuser. *)
Example posix_no_execute :
  isExecutablePosix linuxNode (Stats.mk true (Some 50) (Some 420) (Some 7))
    rootOptions = Return false.
Proof. reflexivity. Qed.

(** Owner-execute only, another owner, not the superuser: false. *)
Example posix_owner_execute_other_user :
  isExecutablePosix linuxNode (Stats.mk true (Some 50) (Some S_IXUSR) (Some 7))
    Options.empty = Return false.
Proof. reflexivity. Qed.

(** A regular file without a group id: the rule throws. *)
Example posix_missing_group :
  isExecutablePosix linuxNode (Stats.mk true None (Some S_IXUSR) (Some 7))
    Options.empty = Throw (newError "Unable to get the group ID of the file!").
Proof. reflexivity. Qed.

(** C5: on a regular file with mode 0o100 whose owner user id differs from
    the identity's uid, the POSIX rule returns true when that uid is 0. *)
Theorem C5_superuser_bypass (host : Host) (stat : Stats.t) (options : Options.t)
    (gid uid ownerGroupId ownerUserId : Z)
    (Hfile : Stats.isFile stat = true)
    (Hgid : ownGidOf host options = Return (Some gid))
    (Huid : ownUidOf host options = Return (Some uid))
    (Hpg : Stats.gid stat = Some ownerGroupId)
    (Hpm : Stats.mode stat = Some S_IXUSR)
    (Hpu : Stats.uid stat = Some ownerUserId)
    (Hother : ownerUserId <> uid)
    (Hroot : uid = 0) :
  isExecutablePosix host stat options = Return true.
Proof.
  rewrite (isExecutablePosix_regular host stat options gid uid
             ownerGroupId S_IXUSR ownerUserId) by assumption.
  subst uid. unfold posixBits.
  destruct masks_are_bits as (_ & _ & ->).
  rewrite (Z.pow2_bits_true 6) by lia.
  rewrite Z.eqb_refl. cbn [orb andb].
  now rewrite !orb_true_r.
Qed.

Lemma C5_superuser_bypass_witness :
  isExecutablePosix linuxNode (Stats.mk true (Some 50) (Some S_IXUSR) (Some 7))
    rootOptions = Return true.
Proof.
  apply (C5_superuser_bypass linuxNode
           (Stats.mk true (Some 50) (Some S_IXUSR) (Some 7)) rootOptions
           1000 0 50 7); try reflexivity.
  discriminate.
Defined.

(** C10: on metadata that is not a regular file the POSIX rule returns false
    and raises nothing, and its result depends neither on the process
    identity nor on the options nor on the mode and owner attributes: they
    may all be unavailable or absent. *)
Theorem C10_not_regular_file_no_error (host : Host) (stat : Stats.t)
    (options : Options.t)
    (Hfile : Stats.isFile stat = false) :
  isExecutablePosix host stat options = Return false /\
  (forall error : JsError, isExecutablePosix host stat options <> Throw error) /\
  (forall (host' : Host) (options' : Options.t) (gid' mode' uid' : option Z),
      isExecutablePosix host' (Stats.mk false gid' mode' uid') options' =
      isExecutablePosix host stat options).
Proof.
  pose proof (isExecutablePosix_not_file host stat options Hfile) as E.
  repeat split.
  - exact E.
  - intros error. rewrite E. discriminate.
  - intros host' options' gid' mode' uid'. rewrite E.
    now apply isExecutablePosix_not_file.
Qed.

Lemma C10_not_regular_file_no_error_witness :
  isExecutablePosix noIdentityDeno (Stats.mk false None None None) Options.empty
    = Return false /\
  (forall error : JsError,
      isExecutablePosix noIdentityDeno (Stats.mk false None None None) Options.empty
        <> Throw error) /\
  (forall (host' : Host) (options' : Options.t) (gid' mode' uid' : option Z),
      isExecutablePosix host' (Stats.mk false gid' mode' uid') options' =
      isExecutablePosix noIdentityDeno (Stats.mk false None None None) Options.empty).
Proof.
  apply (C10_not_regular_file_no_error noIdentityDeno
           (Stats.mk false None None None) Options.empty).
  reflexivity.
Defined.

(** ** The Windows rule *)

Lemma includes_In (xs : list string) (x : string) :
  JS.includes xs x = true <-> In x xs.
Proof.
  unfold JS.includes. rewrite existsb_exists. split.
  - intros (y & Hy & E). apply String.eqb_eq in E. now subst.
  - intros Hx. exists x. split; [assumption | apply String.eqb_refl].
Qed.

(** *** The loop of [extname] *)

Section Loop.
Variable isSep : ascii -> bool.

Lemma loop_seps (seps rest : list ascii) (i : Z) (st : NodePath.State) :
  forallb isSep seps = true ->
  NodePath.matchedSlash st = true ->
  NodePath.extnameLoop isSep (seps ++ rest) i st =
  NodePath.extnameLoop isSep rest (i - Z.of_nat (length seps)) st.
Proof.
  revert i. induction seps as [|c seps IH]; intros i Hs Hm.
  - simpl. f_equal. lia.
  - simpl in Hs. apply andb_true_iff in Hs. destruct Hs as [Hc Hs].
    cbn [app NodePath.extnameLoop]. rewrite Hc, Hm. cbn [negb].
    rewrite IH by assumption. f_equal. cbn [length]. lia.
Qed.

Lemma dotInfo_bound (s : list ascii) (d : nat) (p : Z) :
  dotInfo s = Some (d, p) -> (1 <= d <= length s)%nat.
Proof.
  revert d p. induction s as [|c s IH]; intros d p; simpl; [discriminate|].
  destruct (dotInfo s) as [[d' p']|].
  - specialize (IH d' p' eq_refl).
    destruct (Ascii.eqb c "."); intros H; injection H as <- <-; lia.
  - destruct (Ascii.eqb c "."); [|discriminate].
    intros H; injection H as <- <-. lia.
Qed.

Lemma loop_step (code : ascii) (rest : list ascii) (i : Z) (st : NodePath.State) :
  isSep code = false ->
  NodePath.extnameLoop isSep (code :: rest) i st =
  NodePath.extnameLoop isSep rest (i - 1) (stepChar code i st).
Proof.
  intros Hc. cbn [NodePath.extnameLoop]. rewrite Hc. reflexivity.
Qed.

Lemma dotInfo_cons (c : ascii) (l : list ascii) :
  dotInfo (c :: l) =
  match dotInfo l with
  | None => if Ascii.eqb c "." then Some (S (length l), 0) else None
  | Some (d, p) => if Ascii.eqb c "." then Some (d, 1) else Some (d, -1)
  end.
Proof. reflexivity. Qed.

Lemma step_stateAfter (c : ascii) (s : list ascii) (E sp : Z) :
  Z.of_nat (length s) + 1 <= E ->
  stepChar c (E - 1 - Z.of_nat (length s)) (stateAfter E sp s) =
  stateAfter E sp (c :: s).
Proof.
  intros HE. unfold stateAfter at 2. rewrite dotInfo_cons.
  destruct s as [|c' s'].
  - unfold stepChar. cbn. destruct (Ascii.eqb c "."); cbn; f_equal; lia.
  - remember (c' :: s') as l eqn:El.
    assert (Hl : stateAfter E sp l = stateOfInfo E sp (dotInfo l)) by now subst l.
    rewrite Hl. clear Hl.
    assert (HE1 : (E =? -1) = false) by (apply Z.eqb_neq; lia).
    destruct (dotInfo l) as [[d p]|] eqn:Hd.
    + pose proof (dotInfo_bound l d p Hd) as Hb.
      assert (HE2 : (E - Z.of_nat d =? -1) = false) by (apply Z.eqb_neq; lia).
      unfold stepChar, stateOfInfo.
      cbn [NodePath.endPos NodePath.startDot NodePath.startPart
           NodePath.matchedSlash NodePath.preDotState].
      rewrite HE1.
      cbn [NodePath.endPos NodePath.startDot NodePath.startPart
           NodePath.matchedSlash NodePath.preDotState].
      rewrite HE2. cbn [negb].
      destruct (Ascii.eqb c ".").
      * destruct (p =? 1) eqn:Hp; cbn [negb]; [|reflexivity].
        apply Z.eqb_eq in Hp. now subst p.
      * reflexivity.
    + unfold stepChar, stateOfInfo.
      cbn [NodePath.endPos NodePath.startDot NodePath.startPart
           NodePath.matchedSlash NodePath.preDotState].
      rewrite HE1.
      cbn [NodePath.endPos NodePath.startDot NodePath.startPart
           NodePath.matchedSlash NodePath.preDotState].
      rewrite Z.eqb_refl. cbn [negb].
      destruct (Ascii.eqb c "."); [|reflexivity].
      f_equal. lia.
Qed.

Lemma loop_name (s : list ascii) :
  forallb (fun c => negb (isSep c)) s = true ->
  forall (rest : list ascii) (E sp : Z),
    Z.of_nat (length s) <= E ->
    NodePath.extnameLoop isSep (rev s ++ rest) (E - 1) (NodePath.mkState (-1) sp (-1) true 0) =
    NodePath.extnameLoop isSep rest (E - 1 - Z.of_nat (length s)) (stateAfter E sp s).
Proof.
  induction s as [|c s IH]; intros Hs rest E sp HE.
  - simpl. f_equal. lia.
  - simpl in Hs. apply andb_true_iff in Hs. destruct Hs as [Hc Hs].
    apply negb_true_iff in Hc.
    cbn [rev]. rewrite <- app_assoc. cbn [app].
    cbn [length] in HE.
    rewrite IH by (assumption || lia).
    rewrite loop_step by assumption.
    rewrite step_stateAfter by lia.
    f_equal. cbn [length]. lia.
Qed.
End Loop.

Section Final.
Variable isSep : ascii -> bool.

Lemma forallb_rev_true (P : ascii -> bool) (l : list ascii) :
  forallb P l = true -> forallb P (rev l) = true.
Proof.
  rewrite !forallb_forall. intros H x Hx. apply H. now apply in_rev.
Qed.

Lemma stateAfter_nonempty (E sp : Z) (c : ascii) (s : list ascii) :
  stateAfter E sp (c :: s) = stateOfInfo E sp (dotInfo (c :: s)).
Proof. reflexivity. Qed.

Lemma stateOfInfo_matchedSlash (E sp : Z) (info : option (nat * Z)) :
  NodePath.matchedSlash (stateOfInfo E sp info) = false.
Proof. now destruct info as [[d p]|]. Qed.

(** The state in which the loop of [extname] stops. *)
Lemma extnameLoop_final (dir name seps : list ascii) (start : nat) :
  forallb isSep seps = true ->
  forallb (fun c => negb (isSep c)) name = true ->
  (dir = [] \/ exists d c, dir = (d ++ [c])%list /\ isSep c = true) ->
  (name = [] -> dir = []) ->
  NodePath.extnameLoop isSep (rev (dir ++ name ++ seps))
    (Z.of_nat (start + length dir + length name + length seps) - 1)
    (NodePath.mkState (-1) (Z.of_nat start) (-1) true 0) =
  match name with
  | [] => NodePath.mkState (-1) (Z.of_nat start) (-1) true 0
  | _ :: _ =>
      let E := Z.of_nat (start + length dir + length name) in
      let st := stateOfInfo E (Z.of_nat start) (dotInfo name) in
      NodePath.mkState (NodePath.startDot st) (Z.of_nat (start + length dir))
        (NodePath.endPos st) false (NodePath.preDotState st)
  end.
Proof.
  intros Hseps Hname Hdir Hempty.
  rewrite !rev_app_distr, <- app_assoc.
  rewrite loop_seps by (try apply forallb_rev_true; auto).
  rewrite length_rev.
  replace (Z.of_nat (start + length dir + length name + length seps) - 1
           - Z.of_nat (length seps))
    with (Z.of_nat (start + length dir + length name) - 1) by lia.
  rewrite loop_name by (assumption || lia).
  destruct name as [|c name'].
  - rewrite (Hempty eq_refl). reflexivity.
  - rewrite stateAfter_nonempty.
    destruct Hdir as [-> | (d & sep & -> & Hsep)].
    + cbn [rev NodePath.extnameLoop length].
      destruct (dotInfo (c :: name')) as [[dd p]|]; cbn; f_equal; lia.
    + rewrite rev_app_distr. cbn [rev app NodePath.extnameLoop].
      rewrite Hsep, stateOfInfo_matchedSlash. cbn [negb].
      cbv zeta.
      destruct (dotInfo (c :: name')) as [[dd p]|];
        cbn [stateOfInfo NodePath.endPos NodePath.startDot NodePath.startPart
             NodePath.matchedSlash NodePath.preDotState];
        f_equal; lia.
Qed.

End Final.

(** Strings against lists of characters. *)

Lemma sol_app (a b : list ascii) : string_of_list_ascii (a ++ b) = (string_of_list_ascii a ++ string_of_list_ascii b)%string.
Proof. induction a as [|c a IH]; simpl; [reflexivity | now rewrite IH]. Qed.

Lemma length_sol (l : list ascii) : String.length (string_of_list_ascii l) = length l.
Proof. induction l as [|c l IH]; simpl; [reflexivity | now rewrite IH]. Qed.

Lemma hasDot_sol (l : list ascii) :
  hasDot (string_of_list_ascii l) = existsb (fun c => Ascii.eqb c ".") l.
Proof. induction l as [|c l IH]; simpl; [reflexivity | now rewrite IH]. Qed.

Lemma allChars_sol (P : ascii -> bool) (l : list ascii) :
  allChars P (string_of_list_ascii l) = forallb P l.
Proof. induction l as [|c l IH]; simpl; [reflexivity | now rewrite IH]. Qed.

Lemma substring_sol (l : list ascii) :
  forall n m : nat, substring n m (string_of_list_ascii l) = string_of_list_ascii (firstn m (skipn n l)).
Proof.
  induction l as [|c l IH]; intros [|n] [|m]; simpl; try reflexivity.
  - now rewrite (IH 0%nat m).
  - now rewrite (IH n 0%nat).
  - now rewrite (IH n (S m)).
Qed.

Lemma skipn_length_app (a b : list ascii) : skipn (length a) (a ++ b) = b.
Proof. induction a as [|c a IH]; simpl; [reflexivity | exact IH]. Qed.

Lemma firstn_length_app (a b : list ascii) : firstn (length a) (a ++ b) = a.
Proof. induction a as [|c a IH]; simpl; [reflexivity | now rewrite IH]. Qed.

Lemma dotInfo_none (s : list ascii) :
  dotInfo s = None -> existsb (fun c => Ascii.eqb c ".") s = false.
Proof.
  induction s as [|c s IH]; simpl; [reflexivity|].
  destruct (dotInfo s) as [[d p]|].
  - destruct (Ascii.eqb c "."); discriminate.
  - destruct (Ascii.eqb c "."); [discriminate|]. intros _. now apply IH.
Qed.

Lemma dotInfo_some (s : list ascii) (d : nat) (p : Z) :
  dotInfo s = Some (d, p) ->
  exists before after : list ascii,
    s = (before ++ "."%char :: after)%list /\
    existsb (fun c => Ascii.eqb c ".") after = false /\
    d = S (length after) /\
    ((before = [] /\ p = 0) \/
     (exists c b, before = c :: b /\ p = if Ascii.eqb c "." then 1 else -1)).
Proof.
  revert d p. induction s as [|c s IH]; intros d p; simpl; [discriminate|].
  destruct (dotInfo s) as [[d' p']|] eqn:Hd.
  - destruct (IH d' p' eq_refl) as (before & after & -> & Hno & -> & _).
    intros H. exists (c :: before), after.
    split; [reflexivity|]. split; [assumption|].
    destruct (Ascii.eqb c ".") eqn:Hc; injection H as <- <-;
      (split; [reflexivity|]); right; exists c, before; rewrite Hc; now split.
  - destruct (Ascii.eqb_spec c ".") as [->|Hc]; [|discriminate].
    intros H. injection H as <- <-.
    exists [], s. split; [reflexivity|]. split; [now apply dotInfo_none|].
    split; [reflexivity|]. now left.
Qed.

Lemma sol_inj (a b : list ascii) : string_of_list_ascii a = string_of_list_ascii b -> a = b.
Proof.
  intros H. apply (f_equal list_ascii_of_string) in H.
  now rewrite !list_ascii_of_string_of_list_ascii in H.
Qed.

Lemma extOfName_cond (p : Z) (d n : nat) :
  (p =? 0) || ((p =? 1) && (d =? 1)%nat && (n =? d + 1)%nat) = true <->
  p = 0 \/ (p = 1 /\ d = 1%nat /\ n = (d + 1)%nat).
Proof.
  rewrite orb_true_iff, !andb_true_iff, !Z.eqb_eq, !Nat.eqb_eq. tauto.
Qed.

Lemma two_dots (before after : list ascii) :
  existsb (fun c => Ascii.eqb c ".") after = false ->
  (before ++ "."%char :: after)%list = ["."%char; "."%char] ->
  before = ["."%char] /\ after = [].
Proof.
  intros Hno H.
  destruct before as [|b0 before]; cbn [app] in H.
  - inversion H; subst. cbn in Hno. discriminate.
  - inversion H; subst. destruct before as [|b1 before]; cbn [app] in *.
    + inversion H2; subst. now split.
    + inversion H2; subst. destruct before; discriminate.
Qed.

Lemma extOfName_spec (name : list ascii) :
  isExtensionOfSegment (string_of_list_ascii name) (string_of_list_ascii (extOfName name)).
Proof.
  unfold extOfName. destruct (dotInfo name) as [[d p]|] eqn:Hd.
  - destruct (dotInfo_some name d p Hd) as (before & after & Hname & Hno & Hdlen & Hp).
    exists (string_of_list_ascii ("."%char :: after)).
    split.
    { right. exists (string_of_list_ascii before), (string_of_list_ascii after). subst name.
      split; [now rewrite sol_app|]. split; [now rewrite hasDot_sol|reflexivity]. }
    assert (Hlen : length name = (length before + d)%nat).
    { subst name d. rewrite length_app. reflexivity. }
    assert (Heq : string_of_list_ascii ("."%char :: after) = string_of_list_ascii name -> before = []).
    { intros H. apply sol_inj in H. apply (f_equal (@length ascii)) in H.
      rewrite Hlen, Hdlen in H. cbn [length] in H.
      destruct before; [reflexivity | cbn [length] in H; lia]. }
    assert (Hdots : string_of_list_ascii name = ".."%string ->
                    before = ["."%char] /\ after = []).
    { intros H. change ".."%string with (string_of_list_ascii ["."%char; "."%char]) in H.
      apply sol_inj in H. rewrite Hname in H. now apply two_dots. }
    destruct ((p =? 0) || ((p =? 1) && (d =? 1)%nat && (length name =? d + 1)%nat))
      eqn:Hcond.
    + apply extOfName_cond in Hcond. split; [reflexivity|].
      intros Hne Hnd. exfalso.
      destruct Hcond as [Hp0 | (Hp1 & Hd1 & Hn)].
      * destruct Hp as [[-> _] | (c & b & -> & Hpc)].
        -- apply Hne. now subst name.
        -- destruct (Ascii.eqb c "."); lia.
      * apply Hnd. subst d.
        destruct after; [|cbn [length] in Hd1; lia].
        destruct Hp as [[_ Hp0] | (c & b & -> & Hpc)]; [lia|].
        destruct (Ascii.eqb_spec c ".") as [->|]; [|lia].
        rewrite Hlen in Hn. cbn [length] in Hn.
        destruct b; [|cbn [length] in Hn; lia].
        now subst name.
    + assert (Hext : skipn (length name - d) name = "."%char :: after).
      { rewrite Hlen. replace (length before + d - d)%nat with (length before) by lia.
        subst name. apply skipn_length_app. }
      rewrite Hext. split; [|reflexivity].
      intros Hor. exfalso.
      assert (Htrue : (p =? 0) || ((p =? 1) && (d =? 1)%nat &&
                                  (length name =? d + 1)%nat) = true).
      { apply extOfName_cond. destruct Hor as [H | H].
        - left. apply Heq in H. subst before.
          destruct Hp as [[_ Hp0] | (c & b & Hb & _)]; [assumption | discriminate].
        - right. destruct (Hdots H) as [-> ->].
          destruct Hp as [[Hb _] | (c & b & Hb & Hpc)]; [discriminate|].
          injection Hb as <- <-. cbn in Hpc.
          rewrite Hlen. subst d. cbn [length]. repeat split; assumption || lia. }
      congruence.
  - exists EmptyString. split.
    + left. split; [|reflexivity]. rewrite hasDot_sol. now apply dotInfo_none.
    + split; reflexivity.
Qed.

Lemma length_los (s : string) : length (list_ascii_of_string s) = String.length s.
Proof. induction s as [|c s IH]; simpl; [reflexivity | now rewrite IH]. Qed.

Lemma dotInfo_bound' (s : list ascii) (d : nat) (p : Z) :
  dotInfo s = Some (d, p) -> (1 <= d <= length s)%nat.
Proof.
  intros H. destruct (dotInfo_some s d p H) as (b & a & -> & _ & -> & _).
  rewrite length_app. cbn [length]. lia.
Qed.

(** [extname] on a path cut into drive prefix, directories, last segment and
    trailing separators. *)
Lemma extnameFrom_decomposed (isSep : ascii -> bool)
    (drive dir name seps : list ascii) :
  forallb isSep seps = true ->
  forallb (fun c => negb (isSep c)) name = true ->
  (dir = [] \/ exists d c, dir = (d ++ [c])%list /\ isSep c = true) ->
  (name = [] -> dir = []) ->
  NodePath.extnameFrom isSep (length drive) (string_of_list_ascii (drive ++ dir ++ name ++ seps)) =
  string_of_list_ascii (extOfName name).
Proof.
  intros Hseps Hname Hdir Hempty.
  unfold NodePath.extnameFrom.
  rewrite list_ascii_of_string_of_list_ascii, skipn_length_app, length_sol.
  rewrite !length_app.
  replace (Z.of_nat (length drive + (length dir + (length name + length seps))) - 1)
    with (Z.of_nat (length drive + length dir + length name + length seps) - 1)
    by lia.
  rewrite extnameLoop_final by assumption.
  unfold extOfName.
  destruct name as [|c name']; [reflexivity|].
  remember (c :: name') as name eqn:En.
  cbv zeta.
  destruct (dotInfo name) as [[d p]|] eqn:Hd; [|reflexivity].
  pose proof (dotInfo_bound' name d p Hd) as Hb.
  cbn [stateOfInfo NodePath.endPos NodePath.startDot NodePath.startPart
       NodePath.matchedSlash NodePath.preDotState].
  set (E := Z.of_nat (length drive + length dir + length name)).
  assert (H1 : (E - Z.of_nat d =? -1) = false) by (apply Z.eqb_neq; lia).
  assert (H2 : (E =? -1) = false) by (apply Z.eqb_neq; lia).
  assert (H3 : (E - Z.of_nat d =? E - 1) = (d =? 1)%nat).
  { destruct (Nat.eqb_spec d 1); [apply Z.eqb_eq | apply Z.eqb_neq]; lia. }
  assert (H4 : (E - Z.of_nat d =? Z.of_nat (length drive + length dir) + 1)
               = (length name =? d + 1)%nat).
  { destruct (Nat.eqb_spec (length name) (d + 1));
      [apply Z.eqb_eq | apply Z.eqb_neq]; lia. }
  rewrite H1, H2, H3, H4. cbn [orb].
  destruct ((p =? 0) || ((p =? 1) && (d =? 1)%nat && (length name =? d + 1)%nat));
    [reflexivity|].
  rewrite substring_sol.
  assert (Hsplit : name = (firstn (length name - d) name ++
                           skipn (length name - d) name)%list)
    by (symmetry; apply firstn_skipn).
  assert (Hlb : length (firstn (length name - d) name) = (length name - d)%nat)
    by (rewrite length_firstn; lia).
  assert (Hle : length (skipn (length name - d) name) = d)
    by (rewrite length_skipn; lia).
  remember (firstn (length name - d) name) as before eqn:Eb.
  remember (skipn (length name - d) name) as ext eqn:Ee.
  replace (Z.to_nat (E - (E - Z.of_nat d))) with (length ext) by lia.
  replace (Z.to_nat (E - Z.of_nat d)) with (length (drive ++ dir ++ before))
    by (rewrite !length_app; lia).
  assert (Hl : (drive ++ dir ++ name ++ seps)%list =
               ((drive ++ dir ++ before) ++ ext ++ seps)%list).
  { rewrite Hsplit, <- !app_assoc. reflexivity. }
  rewrite Hl, skipn_length_app, firstn_length_app. reflexivity.
Qed.

Lemma last_segment_exists (isSep : ascii -> bool) (body : list ascii) :
  exists dir name seps : list ascii,
    body = (dir ++ name ++ seps)%list /\
    forallb isSep seps = true /\
    forallb (fun c => negb (isSep c)) name = true /\
    (dir = [] \/ exists d c, dir = (d ++ [c])%list /\ isSep c = true) /\
    (name = [] -> dir = []).
Proof.
  induction body as [|c body IH] using rev_ind.
  - exists [], [], []. repeat split; auto.
  - destruct IH as (dir & name & seps & -> & Hseps & Hname & Hdir & Hempty).
    destruct (isSep c) eqn:Hc.
    + exists dir, name, (seps ++ [c])%list.
      split; [now rewrite <- !app_assoc|].
      split; [|auto].
      rewrite forallb_app, Hseps. cbn. now rewrite Hc.
    + destruct seps as [|s0 seps'].
      * exists dir, (name ++ [c])%list, [].
        split; [now rewrite !app_nil_r, <- app_assoc|].
        split; [reflexivity|]. split.
        { rewrite forallb_app, Hname. cbn. now rewrite Hc. }
        split; [assumption|].
        intros H. now destruct name.
      * assert (Hne : s0 :: seps' <> []) by discriminate.
        destruct (exists_last Hne) as (s' & x & Hs).
        rewrite Hs in *.
        exists (dir ++ name ++ s' ++ [x])%list, [c], [].
        split; [now rewrite <- !app_assoc|].
        split; [reflexivity|]. split; [cbn; now rewrite Hc|].
        split; [|discriminate].
        right. exists (dir ++ name ++ s')%list, x.
        split; [now rewrite <- !app_assoc|].
        rewrite forallb_app in Hseps. apply andb_true_iff in Hseps.
        destruct Hseps as [_ Hx]. cbn in Hx. now rewrite andb_true_r in Hx.
Qed.

(** What [extname] returns: the path is a drive prefix, directories, a last
    segment free of separators and trailing separators, and the result is the
    extension of that segment. *)
Lemma extnameFrom_spec (isSep : ascii -> bool) (start : nat) (path : string) :
  (start <= String.length path)%nat ->
  exists name : string,
    isLastSegment isSep start path name /\
    isExtensionOfSegment name (NodePath.extnameFrom isSep start path).
Proof.
  intros Hstart.
  pose proof (firstn_skipn start (list_ascii_of_string path)) as Hcut.
  destruct (last_segment_exists isSep (skipn start (list_ascii_of_string path)))
    as (dir & name & seps & Hbody & Hseps & Hname & Hdir & Hempty).
  rewrite Hbody in Hcut.
  assert (Hlen : length (firstn start (list_ascii_of_string path)) = start).
  { rewrite length_firstn, length_los. lia. }
  assert (Hpath : path = string_of_list_ascii (firstn start (list_ascii_of_string path) ++ dir ++ name ++ seps)).
  { rewrite Hcut. symmetry. apply string_of_list_ascii_of_string. }
  exists (string_of_list_ascii name). split.
  - exists (string_of_list_ascii (firstn start (list_ascii_of_string path))), (string_of_list_ascii dir), (string_of_list_ascii seps).
    split; [now rewrite Hpath at 1; rewrite !sol_app|].
    split; [now rewrite length_sol|].
    split; [now rewrite allChars_sol|].
    split; [now rewrite allChars_sol|].
    split.
    + intros H. change EmptyString with (string_of_list_ascii []) in H. apply sol_inj in H.
      now rewrite (Hempty H).
    + destruct Hdir as [-> | (d & c & -> & Hc)]; [now left|].
      right. exists (string_of_list_ascii d), c. split; [now rewrite sol_app | assumption].
  - rewrite Hpath. rewrite <- Hlen at 1.
    rewrite extnameFrom_decomposed by assumption.
    apply extOfName_spec.
Qed.

(** The extension of a path is determined by the description alone. *)
Lemma isLastDotSuffix_unique (filePath ext ext' : string) :
  isLastDotSuffix filePath ext -> isLastDotSuffix filePath ext' -> ext = ext'.
Proof.
  assert (Hdot : forall b a, hasDot (b ++ String "." a) = true).
  { induction b as [|c b IH]; intros a; simpl; [reflexivity|].
    rewrite IH. apply orb_true_r. }
  assert (Hsplit : forall b b' a a',
            (b ++ String "." a = b' ++ String "." a')%string ->
            hasDot a = false -> hasDot a' = false -> a = a').
  { induction b as [|c b IH]; intros [|c' b'] a a' E Ha Ha'; simpl in E.
    - now injection E.
    - injection E as _ E. subst a. now rewrite Hdot in Ha.
    - injection E as _ E. subst a'. now rewrite Hdot in Ha'.
    - injection E as _ E. now apply (IH b'). }
  intros [[Hno ->] | (b & a & -> & Ha & ->)] [[Hno' ->] | (b' & a' & E' & Ha' & ->)].
  - reflexivity.
  - subst filePath. now rewrite Hdot in Hno.
  - now rewrite Hdot in Hno'.
  - f_equal. now apply (Hsplit b b').
Qed.

(** *** One last segment, one extension *)

Lemma los_app (a b : string) :
  list_ascii_of_string (a ++ b) =
  (list_ascii_of_string a ++ list_ascii_of_string b)%list.
Proof. induction a as [|c a IH]; simpl; [reflexivity | now rewrite IH]. Qed.

Lemma allChars_los (P : ascii -> bool) (s : string) :
  allChars P s = forallb P (list_ascii_of_string s).
Proof. now rewrite <- allChars_sol, string_of_list_ascii_of_string. Qed.

Section Unique.
Variable isSep : ascii -> bool.

Lemma segment_unique_tail (n1 : list ascii) :
  forall n2 d1 d2 : list ascii,
    forallb (fun c => negb (isSep c)) n1 = true ->
    forallb (fun c => negb (isSep c)) n2 = true ->
    headIsSep isSep d1 -> headIsSep isSep d2 ->
    (n1 ++ d1 = n2 ++ d2)%list -> n1 = n2.
Proof.
  induction n1 as [|a n1 IH]; intros [|b n2] d1 d2 H1 H2 Hd1 Hd2 E;
    cbn [app] in E.
  - reflexivity.
  - exfalso. destruct Hd1 as [-> | (c & r & -> & Hc)]; [discriminate|].
    injection E as -> _. cbn in H2. now rewrite Hc in H2.
  - exfalso. destruct Hd2 as [-> | (c & r & -> & Hc)]; [discriminate|].
    injection E as -> _. cbn in H1. now rewrite Hc in H1.
  - injection E as -> E. f_equal.
    cbn in H1, H2. apply andb_true_iff in H1. apply andb_true_iff in H2.
    now apply (IH n2 d1 d2).
Qed.

Lemma segment_unique_rev (s1 : list ascii) :
  forall s2 n1 n2 d1 d2 : list ascii,
    forallb isSep s1 = true -> forallb isSep s2 = true ->
    forallb (fun c => negb (isSep c)) n1 = true ->
    forallb (fun c => negb (isSep c)) n2 = true ->
    headIsSep isSep d1 -> headIsSep isSep d2 ->
    (n1 = [] -> d1 = []) -> (n2 = [] -> d2 = []) ->
    (s1 ++ n1 ++ d1 = s2 ++ n2 ++ d2)%list -> n1 = n2.
Proof.
  induction s1 as [|x s1 IH]; intros [|y s2] n1 n2 d1 d2 Hs1 Hs2 H1 H2 Hd1 Hd2 He1 He2 E;
    cbn [app] in E.
  - now apply (segment_unique_tail n1 n2 d1 d2).
  - exfalso. cbn in Hs2. apply andb_true_iff in Hs2. destruct Hs2 as [Hy _].
    destruct n1 as [|a n1].
    + rewrite (He1 eq_refl) in E. discriminate.
    + cbn [app] in E. injection E as -> _. cbn in H1. now rewrite Hy in H1.
  - exfalso. cbn in Hs1. apply andb_true_iff in Hs1. destruct Hs1 as [Hx _].
    destruct n2 as [|b n2].
    + rewrite (He2 eq_refl) in E. discriminate.
    + cbn [app] in E. injection E as <- _. cbn in H2. now rewrite Hx in H2.
  - injection E as _ E.
    cbn in Hs1, Hs2. apply andb_true_iff in Hs1. apply andb_true_iff in Hs2.
    now apply (IH s2 n1 n2 d1 d2).
Qed.

(** A path has one last segment. *)
Lemma isLastSegment_unique (start : nat) (path name name' : string) :
  isLastSegment isSep start path name ->
  isLastSegment isSep start path name' ->
  name = name'.
Proof.
  intros (drive & dir & seps & Hp & Hl & Hs & Hn & He & Hd)
         (drive' & dir' & seps' & Hp' & Hl' & Hs' & Hn' & He' & Hd').
  rewrite allChars_los in Hs, Hs', Hn, Hn'.
  assert (Hbody :
    (list_ascii_of_string dir ++ list_ascii_of_string name ++ list_ascii_of_string seps
     = list_ascii_of_string dir' ++ list_ascii_of_string name' ++
       list_ascii_of_string seps')%list).
  { apply (f_equal list_ascii_of_string) in Hp, Hp'.
    rewrite !los_app in Hp, Hp'.
    rewrite <- (skipn_length_app (list_ascii_of_string drive)
                  (list_ascii_of_string dir ++ _)), <- Hp.
    rewrite length_los, Hl, <- Hl', <- length_los, Hp'.
    apply skipn_length_app. }
  apply (f_equal (@rev ascii)) in Hbody.
  rewrite !rev_app_distr, <- !app_assoc in Hbody.
  assert (Hrev : rev (list_ascii_of_string name) = rev (list_ascii_of_string name')).
  { apply (segment_unique_rev
             (rev (list_ascii_of_string seps)) (rev (list_ascii_of_string seps'))
             (rev (list_ascii_of_string name)) (rev (list_ascii_of_string name'))
             (rev (list_ascii_of_string dir)) (rev (list_ascii_of_string dir'))
             (forallb_rev_true _ _ Hs) (forallb_rev_true _ _ Hs')
             (forallb_rev_true _ _ Hn) (forallb_rev_true _ _ Hn')); try exact Hbody.
    - destruct Hd as [-> | (d & c & -> & Hc)]; [now left|].
      right. rewrite los_app, rev_app_distr. cbn. eauto.
    - destruct Hd' as [-> | (d & c & -> & Hc)]; [now left|].
      right. rewrite los_app, rev_app_distr. cbn. eauto.
    - intros H. apply (f_equal (@rev ascii)) in H. rewrite rev_involutive in H.
      destruct name; [|discriminate]. now rewrite (He eq_refl).
    - intros H. apply (f_equal (@rev ascii)) in H. rewrite rev_involutive in H.
      destruct name'; [|discriminate]. now rewrite (He' eq_refl). }
  apply (f_equal (@rev ascii)) in Hrev. rewrite !rev_involutive in Hrev.
  apply (f_equal string_of_list_ascii) in Hrev.
  now rewrite !string_of_list_ascii_of_string in Hrev.
Qed.
End Unique.

(** A segment has one extension. *)
Lemma isExtensionOfSegment_unique (name ext ext' : string) :
  isExtensionOfSegment name ext -> isExtensionOfSegment name ext' -> ext = ext'.
Proof.
  intros (e & He & H1 & H2) (e' & He' & H1' & H2').
  rewrite (isLastDotSuffix_unique name e' e He' He) in *.
  destruct (string_dec e name) as [E|E].
  - now rewrite (H1 (or_introl E)), (H1' (or_introl E)).
  - destruct (string_dec name "..") as [D|D].
    + now rewrite (H1 (or_intror D)), (H1' (or_intror D)).
    + now rewrite (H2 E D), (H2' E D).
Qed.

Lemma driveLength_le (filePath : string) :
  (NodePath.driveLength filePath <= String.length filePath)%nat.
Proof.
  destruct filePath as [|c0 [|c1 rest]]; cbn [NodePath.driveLength String.length];
    try lia.
  destruct (Ascii.eqb c1 ":" && NodePath.isWindowsDeviceRoot c0); lia.
Qed.

Lemma pathExtname_unfold (host : Host) (filePath : string) :
  pathExtname host filePath =
  NodePath.extnameFrom (isHostSeparator host) (hostDriveLength host filePath) filePath.
Proof.
  unfold pathExtname, isHostSeparator, hostDriveLength.
  now destruct (isOSWindows host).
Qed.

(** What [pathExtname] returns on a host: the extension of the last segment
    of the path. *)
Lemma pathExtname_spec (host : Host) (filePath : string) :
  exists name : string,
    isLastSegment (isHostSeparator host) (hostDriveLength host filePath) filePath name /\
    isExtensionOfSegment name (pathExtname host filePath).
Proof.
  rewrite pathExtname_unfold. apply extnameFrom_spec.
  unfold hostDriveLength. destruct (isOSWindows host); [apply driveLength_le | lia].
Qed.

Lemma pathExtname_same_platform (host host' : Host) (filePath : string) :
  platform host' = platform host ->
  pathExtname host' filePath = pathExtname host filePath.
Proof.
  intros H. unfold pathExtname, isOSWindows. now rewrite H.
Qed.

(** The values of [extname] that Node's documentation and test suite list. *)
Example extname_vectors :
  map NodePath.posix_extname
    [ "index.html"; "index.coffee.md"; "index."; "index"; ".index"; ".index.md";
      "/path.to/file"; "/path.to/.file"; "/path/to/..ext"; "/path/to/.."; "..";
      "..file"; "..."; "file.ext/"; "file.ext//"; "file./";
      "file.ext" ++ backslash ] =
    [ ".html"; ".md"; "."; EmptyString; EmptyString; ".md";
      EmptyString; EmptyString; ".ext"; EmptyString; EmptyString;
      ".file"; "."; ".ext"; ".ext"; ".";
      ".ext" ++ backslash ] /\
  map NodePath.win32_extname
    [ "index.html"; ".index"; "..file"; "file.ext" ++ backslash;
      "file.ext" ++ backslash ++ backslash; "file" ++ backslash;
      "file." ++ backslash; "C:\tools\run.exe"; "C:\my.dir\run"; "C:\tools\.bat";
      "C:.bat"; "C:a.bat"; ".exe" ] =
    [ ".html"; EmptyString; ".file"; ".ext";
      ".ext"; EmptyString;
      "."; ".exe"; EmptyString; EmptyString;
      EmptyString; ".bat"; EmptyString ].
Proof. split; reflexivity. Qed.

(** [toLowerCase] on the capital E with acute accent, code unit 201. *)
Example toLowerCase_latin1 :
  JS.toLowerCase (String "." (String (ascii_of_nat 201) "XE")) =
  String "." (String (ascii_of_nat 233) "xe").
Proof. reflexivity. Qed.

(** C3 as it was stated fails: on Windows, for the regular file
    [C:\tools\.bat] and the list [.EXE], [.BAT], the substring from the last
    dot of the path to its end is [.bat], which lower-cased is among the
    lower-cased entries, and yet the rule returns false. *)
Lemma C3_last_dot_counterexample :
  Stats.isFile (Stats.mk true (Some 0) (Some 33206) (Some 0)) = true /\
  envPathExt_get (windowsNode (Some [".EXE"; ".BAT"])) = Some [".EXE"; ".BAT"] /\
  isLastDotSuffix "C:\tools\.bat" ".bat" /\
  In (JS.toLowerCase ".bat") (map JS.toLowerCase [".EXE"; ".BAT"]) /\
  isExecutableWindows (windowsNode (Some [".EXE"; ".BAT"]))
    (Stats.mk true (Some 0) (Some 33206) (Some 0)) "C:\tools\.bat" = Return false.
Proof.
  split; [reflexivity|]. split; [reflexivity|]. split.
  - right. exists ("C:\tools" ++ backslash), "bat". repeat split.
  - split; [|reflexivity]. simpl. tauto.
Qed.

(** C3, amended: on a regular file and with a list of executable extensions
    present, the Windows rule takes as extension what [extname] of
    [node:path] returns: in the last segment of the path (after the drive
    prefix on Windows, trailing separators set aside) the substring from the
    segment's last dot to its end, and the empty string when the segment has
    no dot, when its last dot is its first character, or when it is [..].
    It lower-cases that extension and every entry of the list and returns
    true exactly when the lower-cased extension is among the lower-cased
    entries; the path RUN.EXE against the list [.exe] gives true. *)
Theorem C3_windows_rule_extname (host : Host) (stat : Stats.t) (filePath : string)
    (executableExtensions : list string)
    (Hfile : Stats.isFile stat = true)
    (Hexts : envPathExt_get host = Some executableExtensions) :
  (exists name ext : string,
      isLastSegment (isHostSeparator host) (hostDriveLength host filePath)
        filePath name /\
      isExtensionOfSegment name ext) /\
  (exists b : bool,
      isExecutableWindows host stat filePath = Return b /\
      forall name ext : string,
        isLastSegment (isHostSeparator host) (hostDriveLength host filePath)
          filePath name ->
        isExtensionOfSegment name ext ->
        (b = true <->
           In (JS.toLowerCase ext) (map JS.toLowerCase executableExtensions))) /\
  (filePath = "RUN.EXE" -> executableExtensions = [".exe"] ->
   isExecutableWindows host stat filePath = Return true).
Proof.
  assert (E : isExecutableWindows host stat filePath =
              Return (JS.includes (map JS.toLowerCase executableExtensions)
                        (JS.toLowerCase (pathExtname host filePath)))).
  { unfold isExecutableWindows. now rewrite Hfile, Hexts. }
  destruct (pathExtname_spec host filePath) as (name & Hseg & Hext).
  split; [|split].
  - now exists name, (pathExtname host filePath).
  - eexists. split; [exact E|].
    intros name' ext' Hseg' Hext'.
    rewrite (isLastSegment_unique _ _ _ _ _ Hseg' Hseg) in Hext'.
    rewrite (isExtensionOfSegment_unique _ _ _ Hext' Hext).
    apply includes_In.
  - intros -> ->. rewrite E. unfold pathExtname.
    destruct (isOSWindows host); reflexivity.
Qed.

Lemma C3_windows_rule_extname_witness :
  isExecutableWindows (windowsNode (Some [".exe"]))
    (Stats.mk true (Some 0) (Some 33206) (Some 0)) "RUN.EXE" = Return true.
Proof.
  apply (C3_windows_rule_extname (windowsNode (Some [".exe"]))
           (Stats.mk true (Some 0) (Some 33206) (Some 0)) "RUN.EXE" [".exe"]
           eq_refl eq_refl); reflexivity.
Defined.

(** C6: on a regular file, whatever the path, the Windows rule returns true
    when the list of executable extensions is absent. *)
Theorem C6_windows_no_list (host : Host) (stat : Stats.t) (filePath : string)
    (Hfile : Stats.isFile stat = true)
    (Hexts : envPathExt_get host = None) :
  isExecutableWindows host stat filePath = Return true.
Proof.
  unfold isExecutableWindows. now rewrite Hfile, Hexts.
Qed.

Lemma C6_windows_no_list_witness :
  isExecutableWindows (windowsNode None)
    (Stats.mk true (Some 0) (Some 33206) (Some 0)) "run.txt" = Return true.
Proof.
  apply (C6_windows_no_list (windowsNode None)
           (Stats.mk true (Some 0) (Some 33206) (Some 0)) "run.txt");
    reflexivity.
Defined.

(** The examples of the spec for the Windows rule. *)
Example windows_run_exe :
  isExecutableWindows (windowsNode (Some [".EXE"; ".BAT"]))
    (Stats.mk true (Some 0) (Some 33206) (Some 0)) "run.exe" = Return true.
Proof. reflexivity. Qed.

Example windows_run_txt :
  isExecutableWindows (windowsNode (Some [".EXE"; ".BAT"]))
    (Stats.mk true (Some 0) (Some 33206) (Some 0)) "run.txt" = Return false.
Proof. reflexivity. Qed.

(** ** The queries *)

Lemma isExecutableSync_unfold (host : Host) (filePath : string) (options : Options.t) :
  isExecutableSync host filePath options =
  tryCatch (bind (fsStatSync host filePath) (dispatch host filePath options))
           (recover host options).
Proof. reflexivity. Qed.

Lemma isExecutable_unfold (host : Host) (filePath : string) (options : Options.t) :
  isExecutable host filePath options =
  async (tryCatch (bind (await (fsStat host filePath)) (dispatch host filePath options))
                  (recover host options)).
Proof. reflexivity. Qed.

Lemma await_async {A : Type} (c : Completion A) : await (async c) = c.
Proof. now destruct c. Qed.

Lemma async_await {A : Type} (p : Promise A) : async (await p) = p.
Proof. now destruct p. Qed.

Lemma recover_not_suppressed (host : Host) (options : Options.t) (error : JsError) :
  mayNotExistOf options = false \/
  (isPathNotFound error = false /\ isPermissionDenied error = false) ->
  recover host options error = Throw error.
Proof.
  unfold recover, isPathNotFound, isPermissionDenied.
  intros [-> | [Hnf Hpd]]; [reflexivity|].
  apply orb_false_iff in Hnf. destruct Hnf as [-> _]. rewrite Hpd.
  now rewrite andb_false_r, andb_false_r.
Qed.

(** What [mayNotExist] does recover: a [Deno.errors.NotFound] under Deno, and
    an [EACCES] everywhere. *)
Lemma recover_suppressed (host : Host) (options : Options.t) (error : JsError) :
  mayNotExistOf options = true ->
  (hasDeno host = true /\ instanceofDenoNotFound error = true) \/
  isPermissionDenied error = true ->
  recover host options error = Return false.
Proof.
  unfold recover, isPermissionDenied.
  intros -> [[-> ->] | ->]; [reflexivity|].
  now rewrite orb_true_r.
Qed.

(** C7: a failure of the metadata fetch that is not suppressed -- mayNotExist
    is false, or the failure is neither path-not-found nor permission-denied --
    comes out of both queries as the very error value that [stat] produced. *)
Theorem C7_failure_propagated_unchanged (host : Host) (filePath : string)
    (options : Options.t) (error : JsError)
    (Hkeep : mayNotExistOf options = false \/
             (isPathNotFound error = false /\ isPermissionDenied error = false)) :
  (fsStatSync host filePath = Throw error ->
   isExecutableSync host filePath options = Throw error) /\
  (fsStat host filePath = Rejected error ->
   isExecutable host filePath options = Rejected error).
Proof.
  split; intros Hstat.
  - rewrite isExecutableSync_unfold, Hstat. cbn [bind tryCatch].
    now apply recover_not_suppressed.
  - rewrite isExecutable_unfold, Hstat. cbn [await bind tryCatch].
    now rewrite recover_not_suppressed.
Qed.

Lemma C7_failure_propagated_unchanged_witness :
  isExecutableSync missingNode "/missing/path" Options.empty = Throw enoent /\
  isExecutable missingNode "/missing/path" Options.empty = Rejected enoent.
Proof.
  destruct (C7_failure_propagated_unchanged missingNode "/missing/path"
              Options.empty enoent (or_introl eq_refl)) as [Hsync Hasync].
  split; [apply Hsync | apply Hasync]; reflexivity.
Defined.

(** C8: when the suspending and the blocking [stat] have the same outcome for
    the path, [isExecutable] settles to what [isExecutableSync] completes
    with: the same boolean or the same thrown value. *)
Theorem C8_async_sync_agree (host : Host) (filePath : string) (options : Options.t)
    (Hstat : await (fsStat host filePath) = fsStatSync host filePath) :
  await (isExecutable host filePath options) = isExecutableSync host filePath options.
Proof.
  rewrite isExecutable_unfold, isExecutableSync_unfold, await_async.
  now rewrite Hstat.
Qed.

Lemma C8_async_sync_agree_witness :
  await (isExecutable linuxNode "/usr/bin/env" Options.empty) =
  isExecutableSync linuxNode "/usr/bin/env" Options.empty.
Proof.
  apply (C8_async_sync_agree linuxNode "/usr/bin/env" Options.empty).
  reflexivity.
Defined.

(** C9: the identity of the POSIX permission check is taken from the options
    where they give it ([options.gid], [options.uid]) and from the process
    otherwise; a query with [uid: 0] on a regular file of mode 0o100 owned by
    another user returns true whatever the user id of the process is (the
    group id being resolved from the options or the process). *)
Theorem C9_identity_from_options :
  (forall (host : Host) (stat : Stats.t) (options : Options.t)
          (gid uid ownerGroupId mode ownerUserId : Z),
      Stats.isFile stat = true ->
      Stats.gid stat = Some ownerGroupId ->
      Stats.mode stat = Some mode ->
      Stats.uid stat = Some ownerUserId ->
      Options.gid options = Some gid \/
        (Options.gid options = None /\ processGid host = Return (Some gid)) ->
      Options.uid options = Some uid \/
        (Options.uid options = None /\ processUid host = Return (Some uid)) ->
      isExecutablePosix host stat options =
      Return (posixBits mode ownerGroupId ownerUserId gid uid)) /\
  (forall (host : Host) (filePath : string) (stat : Stats.t) (options : Options.t)
          (gid ownerGroupId ownerUserId : Z),
      isOSWindows host = false ->
      await (fsStat host filePath) = Return stat ->
      fsStatSync host filePath = Return stat ->
      Stats.isFile stat = true ->
      Stats.gid stat = Some ownerGroupId ->
      Stats.mode stat = Some S_IXUSR ->
      Stats.uid stat = Some ownerUserId ->
      ownerUserId <> 0 ->
      Options.uid options = Some 0 ->
      ownGidOf host options = Return (Some gid) ->
      isExecutable host filePath options = Fulfilled true /\
      isExecutableSync host filePath options = Return true).
Proof.
  split.
  - intros host stat options gid uid pg pm pu Hfile Hpg Hpm Hpu Hg Hu.
    apply isExecutablePosix_regular; try assumption.
    + unfold ownGidOf. destruct Hg as [-> | [-> ->]]; reflexivity.
    + unfold ownUidOf. destruct Hu as [-> | [-> ->]]; reflexivity.
  - intros host filePath stat options gid pg pu Hposix Ha Hs Hfile Hpg Hpm Hpu
           Hother Huid Hgid.
    assert (Hrule : isExecutablePosix host stat options = Return true).
    { assert (Hu : ownUidOf host options = Return (Some 0))
        by (unfold ownUidOf; now rewrite Huid).
      rewrite (isExecutablePosix_regular host stat options gid 0 pg S_IXUSR pu)
        by assumption.
      unfold posixBits. destruct masks_are_bits as (_ & _ & ->).
      rewrite (Z.pow2_bits_true 6) by lia.
      cbn [orb andb Z.eqb]. now rewrite !orb_true_r. }
    rewrite isExecutable_unfold, isExecutableSync_unfold, Ha, Hs.
    cbn [bind]. unfold dispatch. rewrite Hposix, Hrule. split; reflexivity.
Qed.

Lemma C9_identity_from_options_witness :
  isExecutable ownerOnlyNode "/opt/tool" rootOptions = Fulfilled true /\
  isExecutableSync ownerOnlyNode "/opt/tool" rootOptions = Return true /\
  isExecutableSync ownerOnlyNode "/opt/tool" Options.empty = Return false.
Proof.
  destruct (proj2 C9_identity_from_options ownerOnlyNode "/opt/tool"
              (Stats.mk true (Some 50) (Some S_IXUSR) (Some 7)) rootOptions
              1000 50 7) as [Ha Hs];
    try reflexivity; try discriminate.
  split; [exact Ha | split; [exact Hs | reflexivity]].
Defined.

(** C1, at the input where the code departs from it: under Node, with
    [mayNotExist: true], the failure of [stat] on a missing path is a
    path-not-found failure, and both queries throw it instead of returning
    false. *)
Theorem C1_node_not_found_rethrown :
  isPathNotFound enoent = true /\
  isExecutableSync missingNode "/missing/path"
    {| Options.mayNotExist := Some true; Options.gid := None; Options.uid := None |}
    = Throw enoent /\
  isExecutable missingNode "/missing/path"
    {| Options.mayNotExist := Some true; Options.gid := None; Options.uid := None |}
    = Rejected enoent.
Proof. repeat split. Qed.

(** The part of C1 the code does implement: with [mayNotExist] true, a failed
    [stat] gives false when the error is a [Deno.errors.NotFound] under Deno
    or carries the code [EACCES]. *)
Lemma mayNotExist_recovers (host : Host) (filePath : string) (options : Options.t)
    (error : JsError) :
  mayNotExistOf options = true ->
  (hasDeno host = true /\ instanceofDenoNotFound error = true) \/
  isPermissionDenied error = true ->
  (fsStatSync host filePath = Throw error ->
   isExecutableSync host filePath options = Return false) /\
  (fsStat host filePath = Rejected error ->
   isExecutable host filePath options = Fulfilled false).
Proof.
  intros Hmay Hkind. split; intros Hstat.
  - rewrite isExecutableSync_unfold, Hstat. cbn [bind tryCatch].
    now apply recover_suppressed.
  - rewrite isExecutable_unfold, Hstat. cbn [await bind tryCatch].
    now rewrite recover_suppressed.
Qed.

(** Under Node no path-not-found failure of [stat] is recovered at all. *)
Lemma node_not_found_never_recovered (host : Host) (filePath : string)
    (options : Options.t) (error : JsError) :
  hasDeno host = false ->
  codeIs error "ENOENT" = true ->
  fsStatSync host filePath = Throw error ->
  isExecutableSync host filePath options = Throw error.
Proof.
  intros Hnode Hcode Hstat.
  rewrite isExecutableSync_unfold, Hstat. cbn [bind tryCatch].
  unfold recover. rewrite Hnode.
  unfold codeIs in *. destruct (code error) as [c|]; [|discriminate].
  apply String.eqb_eq in Hcode. subst c.
  now rewrite andb_false_r.
Qed.

(** * Further properties of the module *)

(** ** The POSIX rule: which bits count *)

Lemma posix_return_expr (pathMode pathGid pathUid ownGid ownUid : Z) :
  JS.Boolean (JS.and pathMode (JS.parseInt "001" 8)) ||
  (JS.Boolean (JS.and pathMode (JS.parseInt "010" 8)) && (ownGid =? pathGid)) ||
  (JS.Boolean (JS.and pathMode (JS.parseInt "100" 8)) && (pathUid =? ownUid)) ||
  (JS.Boolean (JS.and pathMode (JS.or (JS.parseInt "100" 8) (JS.parseInt "010" 8)))
     && (ownUid =? 0))
  = posixBits pathMode pathGid pathUid ownGid ownUid.
Proof.
  change (JS.parseInt "001" 8) with (2 ^ 0).
  change (JS.parseInt "010" 8) with (2 ^ 3).
  change (JS.parseInt "100" 8) with (2 ^ 6).
  rewrite !Boolean_and_pow2, Boolean_and_lor_pow2 by lia.
  reflexivity.
Qed.

Lemma execute_bits_of_mask (m : Z) :
  Z.testbit (Z.land m S_IXUGO) 0 = Z.testbit m 0 /\
  Z.testbit (Z.land m S_IXUGO) 3 = Z.testbit m 3 /\
  Z.testbit (Z.land m S_IXUGO) 6 = Z.testbit m 6.
Proof.
  rewrite !Z.land_spec.
  change (Z.testbit S_IXUGO 0) with true.
  change (Z.testbit S_IXUGO 3) with true.
  change (Z.testbit S_IXUGO 6) with true.
  now rewrite !andb_true_r.
Qed.

Lemma posixBits_mask (m pg pu og ou : Z) :
  posixBits m pg pu og ou = posixBits (Z.land m S_IXUGO) pg pu og ou.
Proof.
  unfold posixBits.
  destruct (execute_bits_of_mask m) as (-> & -> & ->).
  reflexivity.
Qed.

(** The rule on a regular file, once the two identity lookups have answered:
    the five null checks in order, then the bits. *)
Lemma isExecutablePosix_file (host : Host) (stat : Stats.t) (options : Options.t)
    (og ou : option Z) :
  Stats.isFile stat = true ->
  ownGidOf host options = Return og ->
  ownUidOf host options = Return ou ->
  isExecutablePosix host stat options =
  bind (throwIfNull og "Unable to get the group ID of the process!") (fun ownGid =>
  bind (throwIfNull ou "Unable to get the user ID of the process!") (fun ownUid =>
  bind (throwIfNull (Stats.gid stat) "Unable to get the group ID of the file!") (fun pathGid =>
  bind (throwIfNull (Stats.mode stat) "Unable to get the mode of the file!") (fun pathMode =>
  bind (throwIfNull (Stats.uid stat) "Unable to get the user ID of the file!") (fun pathUid =>
  Return (posixBits pathMode pathGid pathUid ownGid ownUid)))))).
Proof.
  intros Hfile Hg Hu. unfold isExecutablePosix.
  rewrite Hfile, Hg, Hu. cbn [negb bind].
  destruct og as [g|]; cbn [throwIfNull bind]; [|reflexivity].
  destruct ou as [u|]; cbn [throwIfNull bind]; [|reflexivity].
  destruct (Stats.gid stat) as [pg|]; cbn [throwIfNull bind]; [|reflexivity].
  destruct (Stats.mode stat) as [pm|]; cbn [throwIfNull bind]; [|reflexivity].
  destruct (Stats.uid stat) as [pu|]; cbn [throwIfNull bind]; [|reflexivity].
  now rewrite posix_return_expr.
Qed.

(** X1: the POSIX rule reads the mode only through its three execute bits:
    two files that differ only in their modes, the modes agreeing on 0o111,
    get the same answer (or the same error) on every host and for every
    options value; file-type, read, write and high bits do not matter. *)
Theorem X1_posix_only_execute_bits (host : Host) (options : Options.t)
    (isFile : bool) (gid uid : option Z) (mode mode' : Z)
    (Hbits : Z.land mode S_IXUGO = Z.land mode' S_IXUGO) :
  isExecutablePosix host (Stats.mk isFile gid (Some mode) uid) options =
  isExecutablePosix host (Stats.mk isFile gid (Some mode') uid) options.
Proof.
  destruct isFile; [|reflexivity].
  unfold isExecutablePosix. cbn [Stats.isFile Stats.gid Stats.mode Stats.uid negb].
  destruct (ownGidOf host options) as [og|e]; cbn [bind]; [|reflexivity].
  destruct (ownUidOf host options) as [ou|e]; cbn [bind]; [|reflexivity].
  destruct og as [g|]; cbn [throwIfNull bind]; [|reflexivity].
  destruct ou as [u|]; cbn [throwIfNull bind]; [|reflexivity].
  destruct gid as [pg|]; cbn [throwIfNull bind]; [|reflexivity].
  destruct uid as [pu|]; cbn [throwIfNull bind]; [|reflexivity].
  rewrite !posix_return_expr.
  now rewrite (posixBits_mask mode), (posixBits_mask mode'), Hbits.
Qed.

Lemma X1_posix_only_execute_bits_witness :
  isExecutablePosix linuxNode (Stats.mk true (Some 50) (Some 33261) (Some 7))
    Options.empty =
  isExecutablePosix linuxNode (Stats.mk true (Some 50) (Some 73) (Some 7))
    Options.empty.
Proof.
  apply (X1_posix_only_execute_bits linuxNode Options.empty true (Some 50) (Some 7)
           33261 73).
  reflexivity.
Defined.

(** X2: without any execute bit nobody can execute: on a regular file whose
    mode has none of the bits 0o111, the rule returns false for every
    identity, the superuser included. *)
Theorem X2_posix_no_execute_bit (host : Host) (stat : Stats.t) (options : Options.t)
    (gid uid ownerGroupId mode ownerUserId : Z)
    (Hfile : Stats.isFile stat = true)
    (Hgid : ownGidOf host options = Return (Some gid))
    (Huid : ownUidOf host options = Return (Some uid))
    (Hpg : Stats.gid stat = Some ownerGroupId)
    (Hpm : Stats.mode stat = Some mode)
    (Hpu : Stats.uid stat = Some ownerUserId)
    (Hnone : Z.land mode S_IXUGO = 0) :
  isExecutablePosix host stat options = Return false.
Proof.
  rewrite (isExecutablePosix_file host stat options (Some gid) (Some uid))
    by assumption.
  rewrite Hpg, Hpm, Hpu. cbn [throwIfNull bind].
  rewrite posixBits_mask, Hnone. reflexivity.
Qed.

Lemma X2_posix_no_execute_bit_witness :
  isExecutablePosix linuxNode (Stats.mk true (Some 0) (Some 33206) (Some 0))
    rootOptions = Return false.
Proof.
  apply (X2_posix_no_execute_bit linuxNode
           (Stats.mk true (Some 0) (Some 33206) (Some 0)) rootOptions
           1000 0 0 33206 0); reflexivity.
Defined.

(** X3: a world-executable regular file is executable for every identity:
    when the other-execute bit 0o001 is set the rule returns true whatever
    the uid, the gid and the owners are. *)
Theorem X3_posix_other_execute (host : Host) (stat : Stats.t) (options : Options.t)
    (gid uid ownerGroupId mode ownerUserId : Z)
    (Hfile : Stats.isFile stat = true)
    (Hgid : ownGidOf host options = Return (Some gid))
    (Huid : ownUidOf host options = Return (Some uid))
    (Hpg : Stats.gid stat = Some ownerGroupId)
    (Hpm : Stats.mode stat = Some mode)
    (Hpu : Stats.uid stat = Some ownerUserId)
    (Hother : Z.land mode S_IXOTH <> 0) :
  isExecutablePosix host stat options = Return true.
Proof.
  rewrite (isExecutablePosix_file host stat options (Some gid) (Some uid))
    by assumption.
  rewrite Hpg, Hpm, Hpu. cbn [throwIfNull bind].
  destruct masks_are_bits as (E & _ & _). rewrite E in Hother.
  apply testbit_mask in Hother; [|lia].
  unfold posixBits. now rewrite Hother.
Qed.

Lemma X3_posix_other_execute_witness :
  isExecutablePosix linuxNode (Stats.mk true (Some 50) (Some 33189) (Some 7))
    Options.empty = Return true.
Proof.
  apply (X3_posix_other_execute linuxNode
           (Stats.mk true (Some 50) (Some 33189) (Some 7)) Options.empty
           1000 1000 50 33189 7); try reflexivity.
  discriminate.
Defined.

(** X4: setting more execute bits never takes executability away: if every
    execute bit of [mode] is also set in [mode'] and the rule returns true
    for [mode], it returns true for [mode'] on the same file and identity. *)
Theorem X4_posix_more_bits (host : Host) (options : Options.t)
    (isFile : bool) (gid uid : option Z) (mode mode' : Z)
    (Hsub : Z.land (Z.land mode S_IXUGO) mode' = Z.land mode S_IXUGO)
    (Htrue : isExecutablePosix host (Stats.mk isFile gid (Some mode) uid) options
             = Return true) :
  isExecutablePosix host (Stats.mk isFile gid (Some mode') uid) options = Return true.
Proof.
  destruct isFile; [|exact Htrue].
  revert Htrue. unfold isExecutablePosix.
  cbn [Stats.isFile Stats.gid Stats.mode Stats.uid negb].
  destruct (ownGidOf host options) as [og|e]; cbn [bind]; [|discriminate].
  destruct (ownUidOf host options) as [ou|e]; cbn [bind]; [|discriminate].
  destruct og as [g|]; cbn [throwIfNull bind]; [|discriminate].
  destruct ou as [u|]; cbn [throwIfNull bind]; [|discriminate].
  destruct gid as [pg|]; cbn [throwIfNull bind]; [|discriminate].
  destruct uid as [pu|]; cbn [throwIfNull bind]; [|discriminate].
  rewrite !posix_return_expr. intros Htrue. f_equal.
  injection Htrue as Htrue.
  assert (Hbit : forall k, Z.testbit (Z.land mode S_IXUGO) k = true ->
                           Z.testbit mode' k = true).
  { intros k Hk. rewrite <- Hsub, Z.land_spec in Hk.
    now apply andb_true_iff in Hk. }
  destruct (execute_bits_of_mask mode) as (E0 & E3 & E6).
  pose proof (Hbit 0) as H0. pose proof (Hbit 3) as H3. pose proof (Hbit 6) as H6.
  rewrite E0 in H0. rewrite E3 in H3. rewrite E6 in H6. clear E0 E3 E6 Hbit Hsub.
  unfold posixBits in *.
  destruct (Z.testbit mode 0), (Z.testbit mode 3), (Z.testbit mode 6);
    rewrite ?H0, ?H3, ?H6 by reflexivity; cbn [orb andb] in *;
    try discriminate; try reflexivity;
    destruct (g =? pg), (pu =? u), (u =? 0); cbn [orb andb] in *;
    try discriminate; rewrite ?orb_true_r; reflexivity.
Qed.

Lemma X4_posix_more_bits_witness :
  isExecutablePosix linuxNode (Stats.mk true (Some 1000) (Some 33261) (Some 7))
    Options.empty = Return true.
Proof.
  apply (X4_posix_more_bits linuxNode Options.empty true (Some 1000) (Some 7)
           33256 33261); reflexivity.
Defined.

(** X5: on a regular file, once the two identity lookups have answered, the
    rule reports the first thing that is missing, in this order: the group id
    of the process, the user id of the process, the group id of the file, its
    mode, its user id. *)
Theorem X5_posix_first_missing (host : Host) (stat : Stats.t) (options : Options.t)
    (og ou : option Z)
    (Hfile : Stats.isFile stat = true)
    (Hgid : ownGidOf host options = Return og)
    (Huid : ownUidOf host options = Return ou) :
  (og = None ->
   isExecutablePosix host stat options =
   Throw (newError "Unable to get the group ID of the process!")) /\
  (og <> None -> ou = None ->
   isExecutablePosix host stat options =
   Throw (newError "Unable to get the user ID of the process!")) /\
  (og <> None -> ou <> None -> Stats.gid stat = None ->
   isExecutablePosix host stat options =
   Throw (newError "Unable to get the group ID of the file!")) /\
  (og <> None -> ou <> None -> Stats.gid stat <> None -> Stats.mode stat = None ->
   isExecutablePosix host stat options =
   Throw (newError "Unable to get the mode of the file!")) /\
  (og <> None -> ou <> None -> Stats.gid stat <> None -> Stats.mode stat <> None ->
   Stats.uid stat = None ->
   isExecutablePosix host stat options =
   Throw (newError "Unable to get the user ID of the file!")).
Proof.
  rewrite (isExecutablePosix_file host stat options og ou) by assumption.
  destruct og as [g|], ou as [u|], (Stats.gid stat) as [pg|],
    (Stats.mode stat) as [pm|], (Stats.uid stat) as [pu|];
    cbn [throwIfNull bind]; repeat split; intros; congruence.
Qed.

Lemma X5_posix_first_missing_witness :
  isExecutablePosix linuxNode (Stats.mk true None None (Some 7)) Options.empty =
  Throw (newError "Unable to get the group ID of the file!").
Proof.
  destruct (X5_posix_first_missing linuxNode (Stats.mk true None None (Some 7))
              Options.empty (Some 1000) (Some 1000) eq_refl eq_refl eq_refl)
    as (_ & _ & H & _).
  apply H; [discriminate | discriminate | reflexivity].
Defined.

(** X6: once the two identity lookups have answered, the rule returns a
    boolean exactly when the file is not regular or all of the process group
    id, process user id, file group id, mode and file user id are there; and
    whatever it throws is a plain [Error] carrying one of its five messages. *)
Theorem X6_posix_returns_iff (host : Host) (stat : Stats.t) (options : Options.t)
    (og ou : option Z)
    (Hgid : ownGidOf host options = Return og)
    (Huid : ownUidOf host options = Return ou) :
  ((exists b : bool, isExecutablePosix host stat options = Return b) <->
   (Stats.isFile stat = false \/
    (og <> None /\ ou <> None /\ Stats.gid stat <> None /\
     Stats.mode stat <> None /\ Stats.uid stat <> None))) /\
  (forall error : JsError,
      isExecutablePosix host stat options = Throw error ->
      exists msg : string, In msg posixMessages /\ error = newError msg).
Proof.
  destruct (Stats.isFile stat) eqn:Hfile.
  - rewrite (isExecutablePosix_file host stat options og ou) by assumption.
    destruct og as [g|], ou as [u|], (Stats.gid stat) as [pg|],
      (Stats.mode stat) as [pm|], (Stats.uid stat) as [pu|];
      cbn [throwIfNull bind]; (split; [split|]);
      try (intros [b Hb]; discriminate);
      try (intros [Hf | (H1 & H2 & H3 & H4 & H5)]; congruence);
      try (intros _; right; repeat split; discriminate);
      try (intros _; eexists; reflexivity);
      try (intros error Herr; discriminate);
      intros error Herr; injection Herr as <-; eexists;
        (split; [|reflexivity]); simpl; tauto.
  - rewrite (isExecutablePosix_not_file host stat options Hfile). split.
    + split; [intros _; now left | intros _; now exists false].
    + intros error Herr. discriminate.
Qed.

Lemma X6_posix_returns_iff_witness :
  exists msg : string,
    In msg posixMessages /\
    newError "Unable to get the mode of the file!" = newError msg.
Proof.
  apply (proj2 (X6_posix_returns_iff noModeNode
                  (Stats.mk true (Some 50) None (Some 7)) Options.empty
                  (Some 1000) (Some 1000) eq_refl eq_refl)).
  reflexivity.
Defined.

(** X7: when the options give both [gid] and [uid], the rule does not look at
    the process at all: it answers the same on every host, also on one where
    the process identity is unavailable or its lookup throws. *)
Theorem X7_posix_overrides_need_no_process (host host' : Host) (stat : Stats.t)
    (options : Options.t) (gid uid : Z)
    (Hgid : Options.gid options = Some gid)
    (Huid : Options.uid options = Some uid) :
  isExecutablePosix host stat options = isExecutablePosix host' stat options.
Proof.
  unfold isExecutablePosix, ownGidOf, ownUidOf.
  now rewrite Hgid, Huid.
Qed.

Lemma X7_posix_overrides_need_no_process_witness :
  isExecutablePosix noIdentityDeno (Stats.mk true (Some 50) (Some 33256) (Some 7))
    (Options.mk None (Some 50) (Some 1000)) = Return true.
Proof.
  rewrite (X7_posix_overrides_need_no_process noIdentityDeno linuxNode
             (Stats.mk true (Some 50) (Some 33256) (Some 7))
             (Options.mk None (Some 50) (Some 1000)) 50 1000 eq_refl eq_refl).
  reflexivity.
Defined.

(** ** The Windows rule: how the extension list is read *)

Lemma lowerChar_idem (c : ascii) : JS.lowerChar (JS.lowerChar c) = JS.lowerChar c.
Proof.
  destruct c as [[] [] [] [] [] [] [] []]; reflexivity.
Qed.

Lemma toLowerCase_idem (s : string) :
  JS.toLowerCase (JS.toLowerCase s) = JS.toLowerCase s.
Proof.
  induction s as [|c rest IH]; simpl; [reflexivity|].
  now rewrite lowerChar_idem, IH.
Qed.

Lemma isExecutableWindows_list (host : Host) (stat : Stats.t) (filePath : string)
    (pathExts : list string) :
  envPathExt_get host = Some pathExts ->
  isExecutableWindows host stat filePath =
  Return (Stats.isFile stat &&
          JS.includes (map JS.toLowerCase pathExts)
                      (JS.toLowerCase (pathExtname host filePath))).
Proof.
  intros Hexts. unfold isExecutableWindows. rewrite Hexts.
  now destruct (Stats.isFile stat).
Qed.

Lemma includes_ext (xs ys : list string) (x : string) :
  (forall y, In y xs <-> In y ys) -> JS.includes xs x = JS.includes ys x.
Proof.
  intros H. apply eq_true_iff_eq. rewrite !includes_In. apply H.
Qed.

(** X8: the Windows rule reads the extension list as a set of lower-cased
    entries: two lists with the same entries up to letter case, in whatever
    order and with whatever repetitions, give the same answer for every file
    and path (on hosts of one platform, which fixes [extname]). *)
Theorem X8_windows_list_as_set (host host' : Host) (stat : Stats.t)
    (filePath : string) (pathExts pathExts' : list string)
    (Hplatform : platform host' = platform host)
    (Hexts : envPathExt_get host = Some pathExts)
    (Hexts' : envPathExt_get host' = Some pathExts')
    (Hsame : forall e : string,
        In e (map JS.toLowerCase pathExts) <-> In e (map JS.toLowerCase pathExts')) :
  isExecutableWindows host stat filePath = isExecutableWindows host' stat filePath.
Proof.
  rewrite (isExecutableWindows_list host stat filePath pathExts Hexts).
  rewrite (isExecutableWindows_list host' stat filePath pathExts' Hexts').
  rewrite (pathExtname_same_platform host host' filePath Hplatform).
  now rewrite (includes_ext _ _ _ Hsame).
Qed.

Lemma X8_windows_list_as_set_witness :
  isExecutableWindows (windowsNode (Some [".EXE"; ".BAT"; ".exe"]))
    (Stats.mk true None None None) "setup.Bat" =
  isExecutableWindows (windowsNode (Some [".bat"; ".Exe"]))
    (Stats.mk true None None None) "setup.Bat".
Proof.
  apply (X8_windows_list_as_set (windowsNode (Some [".EXE"; ".BAT"; ".exe"]))
           (windowsNode (Some [".bat"; ".Exe"])) (Stats.mk true None None None)
           "setup.Bat" [".EXE"; ".BAT"; ".exe"] [".bat"; ".Exe"] eq_refl eq_refl
           eq_refl).
  intros e. simpl. tauto.
Defined.

(** X9: the letter case of the list entries does not matter: lower-casing
    every entry of the extension list beforehand changes no answer, for
    entries of code units below 256 and hosts of one platform. *)
Theorem X9_windows_list_case (host host' : Host) (stat : Stats.t)
    (filePath : string) (pathExts : list string)
    (Hplatform : platform host' = platform host)
    (Hexts : envPathExt_get host = Some pathExts)
    (Hexts' : envPathExt_get host' = Some (map JS.toLowerCase pathExts)) :
  isExecutableWindows host stat filePath = isExecutableWindows host' stat filePath.
Proof.
  rewrite (isExecutableWindows_list host stat filePath _ Hexts).
  rewrite (isExecutableWindows_list host' stat filePath _ Hexts').
  rewrite (pathExtname_same_platform host host' filePath Hplatform).
  rewrite map_map.
  now rewrite (map_ext _ _ toLowerCase_idem).
Qed.

Lemma X9_windows_list_case_witness :
  isExecutableWindows (windowsNode (Some [".COM"; ".Exe"]))
    (Stats.mk true None None None) "a.exe" =
  isExecutableWindows (windowsNode (Some [".com"; ".exe"]))
    (Stats.mk true None None None) "a.exe".
Proof.
  apply (X9_windows_list_case (windowsNode (Some [".COM"; ".Exe"]))
           (windowsNode (Some [".com"; ".exe"])) (Stats.mk true None None None)
           "a.exe" [".COM"; ".Exe"]); reflexivity.
Defined.

(** X10: a longer extension list never takes executability away: if every
    entry of the first list is, up to letter case, an entry of the second and
    the rule returns true with the first, it returns true with the second (on
    hosts of one platform). *)
Theorem X10_windows_list_grows (host host' : Host) (stat : Stats.t)
    (filePath : string) (pathExts pathExts' : list string)
    (Hplatform : platform host' = platform host)
    (Hexts : envPathExt_get host = Some pathExts)
    (Hexts' : envPathExt_get host' = Some pathExts')
    (Hincl : incl (map JS.toLowerCase pathExts) (map JS.toLowerCase pathExts'))
    (Htrue : isExecutableWindows host stat filePath = Return true) :
  isExecutableWindows host' stat filePath = Return true.
Proof.
  rewrite (isExecutableWindows_list host stat filePath _ Hexts) in Htrue.
  rewrite (isExecutableWindows_list host' stat filePath _ Hexts').
  injection Htrue as Htrue. apply andb_true_iff in Htrue.
  destruct Htrue as [-> Hin]. cbn [andb]. f_equal.
  rewrite (pathExtname_same_platform host host' filePath Hplatform).
  apply includes_In. apply Hincl. now apply includes_In.
Qed.

Lemma X10_windows_list_grows_witness :
  isExecutableWindows (windowsNode (Some [".COM"; ".EXE"; ".BAT"]))
    (Stats.mk true None None None) "a.exe" = Return true.
Proof.
  apply (X10_windows_list_grows (windowsNode (Some [".exe"]))
           (windowsNode (Some [".COM"; ".EXE"; ".BAT"]))
           (Stats.mk true None None None) "a.exe" [".exe"] [".COM"; ".EXE"; ".BAT"]
           eq_refl eq_refl eq_refl); [|reflexivity].
  intros e. simpl. tauto.
Defined.

(** X11: an extension list that is present but empty makes nothing
    executable, unlike an absent list: the Windows rule returns false for
    every file and every path. *)
Theorem X11_windows_empty_list (host : Host) (stat : Stats.t) (filePath : string)
    (Hexts : envPathExt_get host = Some []) :
  isExecutableWindows host stat filePath = Return false.
Proof.
  rewrite (isExecutableWindows_list host stat filePath [] Hexts).
  cbn [map JS.includes existsb]. now rewrite andb_false_r.
Qed.

Lemma X11_windows_empty_list_witness :
  isExecutableWindows (windowsNode (Some [])) (Stats.mk true None None None)
    "run.exe" = Return false.
Proof.
  apply (X11_windows_empty_list (windowsNode (Some []))
           (Stats.mk true None None None) "run.exe").
  reflexivity.
Defined.

(** ** The queries: what the [catch] clause can and cannot change *)

Lemma recover_newError (host : Host) (options : Options.t) (msg : string) :
  recover host options (newError msg) = Throw (newError msg).
Proof.
  unfold recover, newError, codeIs. cbn.
  now rewrite !andb_false_r.
Qed.

Lemma recover_cases (host : Host) (options : Options.t) (error : JsError) :
  (recover host options error = Return false /\
   mayNotExistOf options = true /\
   ((hasDeno host = true /\ instanceofDenoNotFound error = true) \/
    codeIs error "EACCES" = true)) \/
  (recover host options error = Throw error /\
   ~ (mayNotExistOf options = true /\
      ((hasDeno host = true /\ instanceofDenoNotFound error = true) \/
       codeIs error "EACCES" = true))).
Proof.
  unfold recover.
  destruct (mayNotExistOf options), (hasDeno host), (instanceofDenoNotFound error),
    (codeIs error "EACCES"); cbn [andb orb];
    first [ left; split; [reflexivity|]; split; [reflexivity|]; tauto
          | right; split; [reflexivity|];
            intros [H1 [[H2 H3] | H2]]; discriminate ].
Qed.

(** Whatever the rule throws after the identity lookups have answered is a
    plain [Error]. *)
Lemma isExecutablePosix_throws_plain (host : Host) (stat : Stats.t)
    (options : Options.t) (og ou : option Z) (error : JsError) :
  ownGidOf host options = Return og ->
  ownUidOf host options = Return ou ->
  isExecutablePosix host stat options = Throw error ->
  exists msg : string, error = newError msg.
Proof.
  intros Hg Hu. destruct (Stats.isFile stat) eqn:Hfile.
  - rewrite (isExecutablePosix_file host stat options og ou) by assumption.
    destruct og as [g|], ou as [u|], (Stats.gid stat) as [pg|],
      (Stats.mode stat) as [pm|], (Stats.uid stat) as [pu|];
      cbn [throwIfNull bind]; intros Herr;
      first [ discriminate | injection Herr as <-; eexists; reflexivity ].
  - rewrite (isExecutablePosix_not_file host stat options Hfile). discriminate.
Qed.

(** X12: a failed [stat] never makes a path executable.  Both queries then
    either return false or throw the error of [stat] itself; they return
    false exactly when [mayNotExist] is true and the error is a
    [Deno.errors.NotFound] on a host with [Deno], or has the code [EACCES]. *)
Theorem X12_failed_stat_outcome (host : Host) (filePath : string)
    (options : Options.t) (error : JsError)
    (Hsync : fsStatSync host filePath = Throw error)
    (Hasync : fsStat host filePath = Rejected error) :
  (isExecutableSync host filePath options = Return false /\
   isExecutable host filePath options = Fulfilled false /\
   mayNotExistOf options = true /\
   ((hasDeno host = true /\ instanceofDenoNotFound error = true) \/
    codeIs error "EACCES" = true)) \/
  (isExecutableSync host filePath options = Throw error /\
   isExecutable host filePath options = Rejected error /\
   ~ (mayNotExistOf options = true /\
      ((hasDeno host = true /\ instanceofDenoNotFound error = true) \/
       codeIs error "EACCES" = true))).
Proof.
  rewrite isExecutableSync_unfold, isExecutable_unfold, Hsync, Hasync.
  cbn [await bind tryCatch].
  destruct (recover_cases host options error) as [(-> & H) | (-> & H)].
  - left. repeat split; apply H.
  - right. repeat split. exact H.
Qed.

Lemma X12_failed_stat_outcome_witness :
  isExecutableSync deniedNode "/root/secret" (withMayNotExist true Options.empty)
    = Return false /\
  isExecutable deniedNode "/root/secret" (withMayNotExist true Options.empty)
    = Fulfilled false.
Proof.
  destruct (X12_failed_stat_outcome deniedNode "/root/secret"
              (withMayNotExist true Options.empty) eacces eq_refl eq_refl)
    as [(Hs & Ha & _) | (Hs & _)].
  - split; [exact Hs | exact Ha].
  - discriminate Hs.
Defined.

(** X13: on a host that is not Windows, when [stat] succeeds and the two
    identity lookups answer, each query gives exactly what the POSIX rule
    gives: its boolean unchanged, or its error unchanged.  In particular
    [mayNotExist] does not turn a missing mode, owner or process identity
    into false. *)
Theorem X13_posix_query_is_rule (host : Host) (filePath : string)
    (options : Options.t) (stat : Stats.t) (og ou : option Z)
    (Hposix : isOSWindows host = false)
    (Hsync : fsStatSync host filePath = Return stat)
    (Hasync : fsStat host filePath = Fulfilled stat)
    (Hgid : ownGidOf host options = Return og)
    (Huid : ownUidOf host options = Return ou) :
  isExecutableSync host filePath options = isExecutablePosix host stat options /\
  isExecutable host filePath options = async (isExecutablePosix host stat options).
Proof.
  rewrite isExecutableSync_unfold, isExecutable_unfold, Hsync, Hasync.
  cbn [await bind]. unfold dispatch. rewrite Hposix.
  destruct (isExecutablePosix host stat options) as [b|error] eqn:Hrule;
    cbn [tryCatch].
  - split; reflexivity.
  - destruct (isExecutablePosix_throws_plain host stat options og ou error
                Hgid Huid Hrule) as (msg & ->).
    rewrite recover_newError. split; reflexivity.
Qed.

Lemma X13_posix_query_is_rule_witness :
  isExecutableSync noModeNode "/opt/tool" (withMayNotExist true Options.empty) =
    Throw (newError "Unable to get the mode of the file!") /\
  isExecutable noModeNode "/opt/tool" (withMayNotExist true Options.empty) =
    Rejected (newError "Unable to get the mode of the file!").
Proof.
  apply (X13_posix_query_is_rule noModeNode "/opt/tool"
           (withMayNotExist true Options.empty)
           (Stats.mk true (Some 50) None (Some 7)) (Some 1000) (Some 1000));
    reflexivity.
Defined.

Lemma dispatch_mayNotExist (host : Host) (filePath : string) (options : Options.t)
    (b : bool) (stat : Stats.t) :
  dispatch host filePath (withMayNotExist b options) stat =
  dispatch host filePath options stat.
Proof. reflexivity. Qed.

(** X14: [mayNotExist] only ever replaces an error by false.  Switching it on
    leaves the result of a query as it is with the option off, or gives false
    where the query would have thrown; and leaving the option out is the same
    as giving it as false. *)
Theorem X14_mayNotExist_only_softens (host : Host) (filePath : string)
    (options : Options.t) :
  (isExecutableSync host filePath (withMayNotExist true options) =
   isExecutableSync host filePath (withMayNotExist false options) \/
   (isExecutableSync host filePath (withMayNotExist true options) = Return false /\
    exists error : JsError,
      isExecutableSync host filePath (withMayNotExist false options) = Throw error)) /\
  (Options.mayNotExist options = None ->
   isExecutableSync host filePath options =
   isExecutableSync host filePath (withMayNotExist false options)).
Proof.
  split.
  - rewrite !isExecutableSync_unfold.
    destruct (fsStatSync host filePath) as [stat|e]; cbn [bind].
    + rewrite !dispatch_mayNotExist.
      destruct (dispatch host filePath options stat) as [b|e]; cbn [tryCatch].
      * now left.
      * unfold recover. cbn [mayNotExistOf withMayNotExist Options.mayNotExist andb].
        destruct ((hasDeno host && instanceofDenoNotFound e) || codeIs e "EACCES").
        -- right. split; [reflexivity | now exists e].
        -- now left.
    + cbn [tryCatch]. unfold recover.
      cbn [mayNotExistOf withMayNotExist Options.mayNotExist andb].
      destruct ((hasDeno host && instanceofDenoNotFound e) || codeIs e "EACCES").
      * right. split; [reflexivity | now exists e].
      * now left.
  - intros Hnone. destruct options as [m g u]. cbn in Hnone. subst m. reflexivity.
Qed.

Lemma X14_mayNotExist_only_softens_witness :
  isExecutableSync deniedNode "/root/secret" Options.empty =
  isExecutableSync deniedNode "/root/secret" (withMayNotExist false Options.empty).
Proof.
  apply (proj2 (X14_mayNotExist_only_softens deniedNode "/root/secret" Options.empty)).
  reflexivity.
Defined.

(** X16: what [stat] reports as not a regular file (a directory, a device)
    is never executable: both queries return false on every platform, for
    every options value, without needing the process identity, the mode, the
    owners or the extension list. *)
Theorem X16_query_not_regular_file (host : Host) (filePath : string)
    (options : Options.t) (stat : Stats.t)
    (Hsync : fsStatSync host filePath = Return stat)
    (Hasync : fsStat host filePath = Fulfilled stat)
    (Hfile : Stats.isFile stat = false) :
  isExecutableSync host filePath options = Return false /\
  isExecutable host filePath options = Fulfilled false.
Proof.
  rewrite isExecutableSync_unfold, isExecutable_unfold, Hsync, Hasync.
  cbn [await bind]. unfold dispatch.
  rewrite (isExecutablePosix_not_file host stat options Hfile).
  rewrite (isExecutableWindows_not_file host stat filePath Hfile).
  destruct (isOSWindows host); split; reflexivity.
Qed.

Lemma X16_query_not_regular_file_witness :
  isExecutableSync noIdentityDeno "/tmp" Options.empty = Return false /\
  isExecutable noIdentityDeno "/tmp" Options.empty = Fulfilled false.
Proof.
  apply (X16_query_not_regular_file noIdentityDeno "/tmp" Options.empty
           (Stats.mk false None None None)); reflexivity.
Defined.
